(** * QuickBooks node: the per-item dispatcher of [QuickBooks.execute]

    A shallow embedding of
    [packages/nodes-base/nodes/QuickBooks/QuickBooks.node.ts].

    JavaScript values are a small JSON type, objects are association lists
    in insertion order, and the asynchronous body of [execute] is written in
    a monad that threads the log of outbound HTTP requests and carries the
    thrown error, so that "which requests were issued before the failure"
    is a statement about the final log. *)

From Stdlib Require Import String Ascii List ZArith Bool Lia.
From Stdlib Require Import DecimalString.
Import ListNotations.
Open Scope string_scope.
Set Warnings "-register-all".

(* ===================================================================== *)
(** ** JavaScript values *)
(* ===================================================================== *)

(** [IDataObject] values.  Numbers are the integral ones only. *)
Inductive json : Type :=
| JUndefined
| JNull
| JBool (b : bool)
| JNum (n : Z)
| JStr (s : string)
| JArr (l : list json)
| JObj (o : list (string * json)).

(** An object literal: its own keys, in insertion order. *)
Definition obj : Type := list (string * json).

(** [o[k]], [undefined] when the key is absent. *)
Fixpoint get (k : string) (o : obj) : json :=
  match o with
  | [] => JUndefined
  | (k', v) :: o' => if String.eqb k k' then v else get k o'
  end.

(** [o[k] = v]: overwrite in place, else append as the last key. *)
Fixpoint set (k : string) (v : json) (o : obj) : obj :=
  match o with
  | [] => [(k, v)]
  | (k', v') :: o' =>
      if String.eqb k k' then (k', v) :: o' else (k', v') :: set k v o'
  end.

(** [v === undefined] *)
Definition isUndefined (v : json) : bool :=
  match v with JUndefined => true | _ => false end.

(** [v === 'lit'] for a string literal. *)
Definition strictEqStr (v : json) (lit : string) : bool :=
  match v with JStr s => String.eqb s lit | _ => false end.

(** The truthiness that [if (v)] tests. *)
Definition truthy (v : json) : bool :=
  match v with
  | JUndefined | JNull => false
  | JBool b => b
  | JNum n => negb (Z.eqb n 0)
  | JStr s => negb (String.eqb s EmptyString)
  | JArr _ | JObj _ => true
  end.

(** lodash [isEmpty]: no own keys, no elements, or not a collection. *)
Definition isEmpty (v : json) : bool :=
  match v with
  | JObj [] | JArr [] | JStr EmptyString => true
  | JObj _ | JArr _ | JStr _ => false
  | JUndefined | JNull | JBool _ | JNum _ => true
  end.

(** [Array.isArray] *)
Definition isArray (v : json) : bool :=
  match v with JArr _ => true | _ => false end.

Definition decimal (n : Z) : string := NilZero.string_of_int (Z.to_int n).

Definition joinWith (sep : string) (l : list string) : string :=
  match l with
  | [] => EmptyString
  | s :: l' => fold_left (fun acc x => acc ++ sep ++ x) l' s
  end.

(** What a template literal [`${v}`] inserts for [v].  For a number this
    is its decimal digits, which is what JavaScript prints for an integer
    of magnitude below 10^21; beyond that JavaScript prints an exponent
    form, which is outside the model.  A statement that fixes the text of
    an endpoint takes the id as a string. *)
Fixpoint toStr (v : json) : string :=
  match v with
  | JUndefined => "undefined"
  | JNull => "null"
  | JBool true => "true"
  | JBool false => "false"
  | JNum n => decimal n
  | JStr s => s
  | JArr l =>
      joinWith ","
        (map (fun x => match x with
                       | JUndefined | JNull => EmptyString
                       | _ => toStr x
                       end) l)
  | JObj _ => "[object Object]"
  end.

Definition upcase (c : ascii) : ascii :=
  let n := nat_of_ascii c in
  if andb (Nat.leb 97 n) (Nat.leb n 122) then ascii_of_nat (n - 32) else c.

(** [capitalCase] of change-case on a one-word lower-case name, which is
    what every resource name is: the first letter in upper case. *)
Definition capitalCase (s : string) : string :=
  match s with
  | EmptyString => EmptyString
  | String c s' => String (upcase c) s'
  end.

(* ===================================================================== *)
(** ** Requests, errors and the execution monad *)
(* ===================================================================== *)

(** One call of [quickBooksApiRequest(method, endpoint, qs, body)]. *)
Record Request : Type := mkRequest {
  method : string;
  endpoint : string;
  qs : obj;
  body : obj
}.

Definition Trace : Type := list Request.

(** What a run can throw.  [ValidationError] is the [throw new Error(msg)]
    of [execute] itself, [UpstreamError] what the HTTP call rejects with,
    [TypeError] a property read on [undefined] or [null]. *)
Inductive Error : Type :=
| ValidationError (msg : string)
| UpstreamError (payload : json)
| TypeError.

Inductive Result (A : Type) : Type :=
| Ok (a : A)
| Err (e : Error).
Arguments Ok {A} a.
Arguments Err {A} e.

(** A computation reads the log of requests issued so far and returns its
    result with the extended log; the log survives a throw. *)
Definition M (A : Type) : Type := Trace -> Result A * Trace.

Definition ret {A} (a : A) : M A := fun t => (Ok a, t).

Definition throw {A} (e : Error) : M A := fun t => (Err e, t).

Definition bind {A B} (m : M A) (k : A -> M B) : M B :=
  fun t =>
    match m t with
    | (Ok a, t') => k a t'
    | (Err e, t') => (Err e, t')
    end.

Notation "x <- m ;; k" := (bind m (fun x => k))
  (at level 61, m at next level, right associativity).
Notation "' pat <- m ;; k" := (bind m (fun x => match x with pat => k end))
  (at level 61, pat pattern, m at next level, right associativity).
Notation "m ;;; k" := (bind m (fun _ => k))
  (at level 61, right associativity).

(** [v[k]] on an arbitrary value: throws on [undefined] and [null]. *)
Definition member (k : string) (v : json) : M json :=
  match v with
  | JUndefined | JNull => throw TypeError
  | JObj o => ret (get k o)
  | _ => ret JUndefined
  end.


(* ===================================================================== *)
(** ** The host and the helpers of GenericFunctions *)
(* ===================================================================== *)

(** What [this] gives [execute]: the input items, the parameters of each
    item, the credential's realm, the remote API behind the HTTP transport
    (its answer may depend on the requests already served), and the helpers
    whose code the node only calls. *)
Record Host : Type := mkHost {
  (** [this.getInputData()] *)
  items : list json;
  (** [this.getNodeParameter(name, i)], the value the host resolves for
      the item; a parameter that is not set reads as [undefined] *)
  param : string -> nat -> json;
  (** [this.getNodeParameter('Line', i) as IDataObject[]] *)
  lineParam : nat -> list obj;
  (** [oauthTokenData.realmId] *)
  realmId : string;
  (** the remote API: [inr] a response, [inl] a rejection *)
  server : Trace -> Request -> json + json;
  (** [populateFields.call(this, body, fields, resource)] *)
  populateFields : obj -> json -> json -> obj;
  (** [handleListing.call(this, i, endpoint, resource)] *)
  handleListing : nat -> string -> json -> M json;
  (** [handleBinaryData.call(this, items, i, companyId, resource, id)] *)
  handleBinaryData :
    list json -> nat -> string -> json -> json -> M (list (list json));
  (** [this.helpers.returnJsonArray(returnData)] *)
  returnJsonArray : list json -> list json
}.

Section Node.

Variable h : Host.

(** Modelled from the spec: [quickBooksApiRequest] of GenericFunctions, the
    HTTP transport taken as a black box (section 1): one outbound call per
    invocation, resolved with the API's response or rejected with its
    failure, which is propagated unmodified (section 7). *)
Definition quickBooksApiRequest (m e : string) (q b : obj) : M json :=
  fun t =>
    let r := mkRequest m e q b in
    match server h t r with
    | inr resp => (Ok resp, (t ++ [r])%list)
    | inl failure => (Err (UpstreamError failure), (t ++ [r])%list)
    end.

(** The single-entity read [GET /{resource}/{id}] of section 6. *)
Definition entityRead (companyId : string) (resource id : json) : Request :=
  mkRequest "GET"
    ("/v3/company/" ++ companyId ++ "/" ++ toStr resource ++ "/" ++ toStr id)
    [] [].

(** Modelled from the spec: [getSyncToken] of GenericFunctions (section
    4.3): given the resource and the item whose [<resource>Id] parameter
    names the entity, issue a read of the current entity, unwrap the
    envelope under the capitalized resource name, extract its SyncToken. *)
Definition getSyncToken (i : nat) (companyId : string) (resource : json)
  : M json :=
  let resourceId := param h (toStr resource ++ "Id") i in
  let r := entityRead companyId resource resourceId in
  resp <- quickBooksApiRequest (method r) (endpoint r) (qs r) (body r) ;;
  entity <- member (capitalCase (toStr resource)) resp ;;
  member "SyncToken" entity.

(** Modelled from the spec: [getRefAndSyncToken] of GenericFunctions
    (section 4.3): the same read, from which both the SyncToken and the
    reference's display name and id are extracted; returns [{ref, token}]. *)
Definition getRefAndSyncToken (i : nat) (companyId : string)
  (resource : json) (ref : string) : M (json * json) :=
  let resourceId := param h (toStr resource ++ "Id") i in
  let r := entityRead companyId resource resourceId in
  resp <- quickBooksApiRequest (method r) (endpoint r) (qs r) (body r) ;;
  entity <- member (capitalCase (toStr resource)) resp ;;
  syncToken <- member "SyncToken" entity ;;
  reference <- member ref entity ;;
  name <- member "name" reference ;;
  value <- member "value" reference ;;
  ret (JObj [("name", name); ("value", value)], syncToken).

(** The reference key a detail type selects, with the line field that
    carries its id (section 4.4: AccountRef or ItemRef). *)
Definition detailRef (detailType : json) : option (string * string) :=
  if strictEqStr detailType "AccountBasedExpenseLineDetail"
  then Some ("AccountRef", "accountId")
  else if strictEqStr detailType "ItemBasedExpenseLineDetail"
  then Some ("ItemRef", "itemId")
  else if strictEqStr detailType "SalesItemLineDetail"
  then Some ("ItemRef", "itemId")
  else None.

(** Modelled from the spec: one line of [processLines] (section 4.4): a
    line becomes [{DetailType, Amount, Description, <DetailType>: {<RefKey>:
    {value: <id>}}}]; a detail type that selects no reference has no nested
    entry. *)
Definition processLine (line : obj) : json :=
  let core :=
    [("DetailType", get "DetailType" line);
     ("Amount", get "Amount" line);
     ("Description", get "Description" line)] in
  match detailRef (get "DetailType" line) with
  | Some (refKey, idField) =>
      JObj (core ++
            [(toStr (get "DetailType" line),
              JObj [(refKey, JObj [("value", get idField line)])])])%list
  | None => JObj core
  end.

(** Modelled from the spec: [processLines] of GenericFunctions (section
    4.4): the nested line array, in input order. *)
Definition processLines (b : obj) (lines : list obj) (resource : json)
  : json :=
  JArr (map processLine lines).

(* ===================================================================== *)
(** ** The handlers of [execute] *)
(* ===================================================================== *)

(** [const companyId = oauthTokenData.realmId] *)
Definition companyId : string := realmId h.

(** [`/v3/company/${companyId}/${resource}`] *)
Definition resourceEndpoint (resource : json) : string :=
  "/v3/company/" ++ companyId ++ "/" ++ toStr resource.

(** [responseData = responseData[capitalCase(resource)]] *)
Definition unwrap (resource responseData : json) : M json :=
  member (capitalCase (toStr resource)) responseData.

(** The predicate of [lines.some(...)]: a line with no detail type, amount
    or description. *)
Definition lineIncomplete (line : obj) : bool :=
  isUndefined (get "DetailType" line)
  || isUndefined (get "Amount" line)
  || isUndefined (get "Description" line).

(** The [lines.forEach] of bill create (lines 182-188). *)
Fixpoint billLineRefs (lines : list obj) : M unit :=
  match lines with
  | [] => ret tt
  | line :: rest =>
      if strictEqStr (get "DetailType" line) "AccountBasedExpenseLineDetail"
         && isUndefined (get "accountId" line)
      then throw (ValidationError
                    "Please enter an account ID for the associated line.")
      else if strictEqStr (get "DetailType" line) "ItemBasedExpenseLineDetail"
              && isUndefined (get "itemId" line)
      then throw (ValidationError
                    "Please enter an item ID for the associated line.")
      else billLineRefs rest
  end.

(** The [lines.forEach] of estimate and invoice create (lines 423-427 and
    531-535). *)
Fixpoint salesLineRefs (lines : list obj) : M unit :=
  match lines with
  | [] => ret tt
  | line :: rest =>
      if strictEqStr (get "DetailType" line) "SalesItemLineDetail"
         && isUndefined (get "itemId" line)
      then throw (ValidationError
                    "Please enter an item ID for the associated line.")
      else salesLineRefs rest
  end.

(** The tail shared by every create: merge [additionalFields], POST, unwrap. *)
Definition createFrom (resource : json) (body0 : obj) (i : nat) : M json :=
  let additionalFields := param h "additionalFields" i in
  let body := populateFields h body0 additionalFields resource in
  responseData <-
    quickBooksApiRequest "POST" (resourceEndpoint resource) [] body ;;
  unwrap resource responseData.

(** bill, estimate and invoice create: the line checks, the reference, the
    processed lines, then the create tail.  [refName] is VendorRef or
    CustomerRef and [lineRefs] the resource's [forEach]. *)
Definition createWithLines (resource : json) (refName : string)
  (lineRefs : list obj -> M unit) (i : nat) : M json :=
  let lines := lineParam h i in
  (if Nat.eqb (length lines) 0
   then throw (ValidationError
                 ("Please enter at least one line for the "
                  ++ toStr resource ++ "."))
   else ret tt) ;;;
  (if existsb lineIncomplete lines
   then throw (ValidationError
         "Please enter detail type, amount and description for every line.")
   else ret tt) ;;;
  lineRefs lines ;;;
  let body := [(refName, JObj [("value", param h refName i)])] in
  let body := set "Line" (processLines body lines resource) body in
  createFrom resource body i.

(** get without download: [GET /{resource}/{id}], unwrap. *)
Definition getEntity (resource : json) (idName : string) (i : nat) : M json :=
  let id := param h idName i in
  let endpoint := resourceEndpoint resource ++ "/" ++ toStr id in
  responseData <- quickBooksApiRequest "GET" endpoint [] [] ;;
  unwrap resource responseData.

(** getAll: the listing helper on the query endpoint. *)
Definition getAll (resource : json) (i : nat) : M json :=
  let endpoint := "/v3/company/" ++ companyId ++ "/query" in
  handleListing h i endpoint resource.

(** The tail shared by every update: the emptiness check on [updateFields],
    the merge, POST, unwrap. *)
Definition updateFrom (resource : json) (body0 : obj) (i : nat) : M json :=
  let updateFields := param h "updateFields" i in
  (if isEmpty updateFields
   then throw (ValidationError
                 ("Please enter at least one field to update for the "
                  ++ toStr resource ++ "."))
   else ret tt) ;;;
  let body := populateFields h body0 updateFields resource in
  responseData <-
    quickBooksApiRequest "POST" (resourceEndpoint resource) [] body ;;
  unwrap resource responseData.

(** customer, employee and vendor update. *)
Definition updatePlain (resource : json) (idName : string) (i : nat)
  : M json :=
  syncToken <- getSyncToken i companyId resource ;;
  let body :=
    [("Id", param h idName i);
     ("SyncToken", syncToken);
     ("sparse", JBool true)] in
  updateFrom resource body i.

(** bill, estimate, invoice and payment update. *)
Definition updateWithRef (resource : json) (idName refName : string)
  (i : nat) : M json :=
  '(ref, syncToken) <- getRefAndSyncToken i companyId resource refName ;;
  name <- member "name" ref ;;
  value <- member "value" ref ;;
  let body :=
    [("Id", param h idName i);
     ("SyncToken", syncToken);
     ("sparse", JBool true);
     (refName, JObj [("name", name); ("value", value)])] in
  updateFrom resource body i.

(** invoice and payment delete. *)
Definition deleteEntity (resource : json) (idName : string) (i : nat)
  : M json :=
  let qs := [("operation", JStr "delete")] in
  syncToken <- getSyncToken i companyId resource ;;
  let body := [("Id", param h idName i); ("SyncToken", syncToken)] in
  responseData <-
    quickBooksApiRequest "POST" (resourceEndpoint resource) qs body ;;
  unwrap resource responseData.

(** invoice and payment void. *)
Definition voidEntity (resource : json) (idName : string) (i : nat)
  : M json :=
  syncToken <- getSyncToken i companyId resource ;;
  let qs :=
    [("Id", param h idName i);
     ("SyncToken", syncToken);
     ("operation", JStr "void")] in
  responseData <-
    quickBooksApiRequest "POST" (resourceEndpoint resource) qs [] ;;
  unwrap resource responseData.

(** invoice and payment send. *)
Definition sendEntity (resource : json) (idName : string) (i : nat)
  : M json :=
  let id := param h idName i in
  let qs := [("sendTo", param h "email" i)] in
  let endpoint := resourceEndpoint resource ++ "/" ++ toStr id ++ "/send" in
  responseData <- quickBooksApiRequest "POST" endpoint qs [] ;;
  unwrap resource responseData.

(** How one iteration of the loop body ends: it falls through to the push
    with the current [responseData], or [execute] returns from inside it. *)
Inductive Flow : Type :=
| Next (responseData : json)
| Return (output : list (list json)).

Definition next (m : M json) : M Flow :=
  responseData <- m ;; ret (Next responseData).

(** estimate, invoice and payment get: the download flag decides between
    returning the binary result and the plain get. *)
Definition getOrDownload (resource : json) (idName : string) (i : nat)
  : M Flow :=
  let id := param h idName i in
  let download := param h "download" i in
  if truthy download
  then
    output <- handleBinaryData h (items h) i companyId resource id ;;
    ret (Return output)
  else
    next (getEntity resource idName i).

(* ===================================================================== *)
(** ** The loop body and [execute] *)
(* ===================================================================== *)

(** The conditional cascade of the loop body (lines 164-910) for the
    item [i].  A pair that matches no branch leaves [responseData] as it
    was. *)
Definition dispatch (resource operation : json) (i : nat)
  (responseData : json) : M Flow :=
  if strictEqStr resource "bill" then
    if strictEqStr operation "create" then
      next (createWithLines resource "VendorRef" billLineRefs i)
    else if strictEqStr operation "get" then
      next (getEntity resource "billId" i)
    else if strictEqStr operation "getAll" then
      next (getAll resource i)
    else if strictEqStr operation "update" then
      next (updateWithRef resource "billId" "VendorRef" i)
    else ret (Next responseData)
  else if strictEqStr resource "customer" then
    if strictEqStr operation "create" then
      next (createFrom resource
              [("DisplayName", param h "displayName" i)] i)
    else if strictEqStr operation "get" then
      next (getEntity resource "customerId" i)
    else if strictEqStr operation "getAll" then
      next (getAll resource i)
    else if strictEqStr operation "update" then
      next (updatePlain resource "customerId" i)
    else ret (Next responseData)
  else if strictEqStr resource "employee" then
    if strictEqStr operation "create" then
      next (createFrom resource
              [("FamilyName", param h "FamilyName" i);
               ("GivenName", param h "GivenName" i)] i)
    else if strictEqStr operation "get" then
      next (getEntity resource "employeeId" i)
    else if strictEqStr operation "getAll" then
      next (getAll resource i)
    else if strictEqStr operation "update" then
      next (updatePlain resource "employeeId" i)
    else ret (Next responseData)
  else if strictEqStr resource "estimate" then
    if strictEqStr operation "create" then
      next (createWithLines resource "CustomerRef" salesLineRefs i)
    else if strictEqStr operation "get" then
      getOrDownload resource "estimateId" i
    else if strictEqStr operation "getAll" then
      next (getAll resource i)
    else if strictEqStr operation "update" then
      next (updateWithRef resource "estimateId" "CustomerRef" i)
    else ret (Next responseData)
  else if strictEqStr resource "invoice" then
    if strictEqStr operation "create" then
      next (createWithLines resource "CustomerRef" salesLineRefs i)
    else if strictEqStr operation "delete" then
      next (deleteEntity resource "invoiceId" i)
    else if strictEqStr operation "get" then
      getOrDownload resource "invoiceId" i
    else if strictEqStr operation "getAll" then
      next (getAll resource i)
    else if strictEqStr operation "send" then
      next (sendEntity resource "invoiceId" i)
    else if strictEqStr operation "update" then
      next (updateWithRef resource "invoiceId" "CustomerRef" i)
    else if strictEqStr operation "void" then
      next (voidEntity resource "invoiceId" i)
    else ret (Next responseData)
  else if strictEqStr resource "item" then
    if strictEqStr operation "get" then
      next (getEntity resource "itemId" i)
    else if strictEqStr operation "getAll" then
      next (getAll resource i)
    else ret (Next responseData)
  else if strictEqStr resource "payment" then
    if strictEqStr operation "create" then
      next (createFrom resource
              [("CustomerRef", JObj [("value", param h "CustomerRef" i)]);
               ("TotalAmt", param h "TotalAmt" i)] i)
    else if strictEqStr operation "delete" then
      next (deleteEntity resource "paymentId" i)
    else if strictEqStr operation "get" then
      getOrDownload resource "paymentId" i
    else if strictEqStr operation "getAll" then
      next (getAll resource i)
    else if strictEqStr operation "send" then
      next (sendEntity resource "paymentId" i)
    else if strictEqStr operation "update" then
      next (updateWithRef resource "paymentId" "CustomerRef" i)
    else if strictEqStr operation "void" then
      next (voidEntity resource "paymentId" i)
    else ret (Next responseData)
  else if strictEqStr resource "vendor" then
    if strictEqStr operation "create" then
      next (createFrom resource
              [("DisplayName", param h "displayName" i)] i)
    else if strictEqStr operation "get" then
      next (getEntity resource "vendorId" i)
    else if strictEqStr operation "getAll" then
      next (getAll resource i)
    else if strictEqStr operation "update" then
      next (updatePlain resource "vendorId" i)
    else ret (Next responseData)
  else ret (Next responseData).

(** [Array.isArray(responseData) ? returnData.push(...responseData)
                                 : returnData.push(responseData)] *)
Definition push (responseData : json) (returnData : list json) : list json :=
  match responseData with
  | JArr l => (returnData ++ l)%list
  | _ => (returnData ++ [responseData])%list
  end.

(** How the loop ends: it runs out of items with the collected
    [returnData], or a download returned from inside it. *)
Inductive Finish : Type :=
| Collected (returnData : list json)
| Returned (output : list (list json)).

(** [for (let i = ...; i < items.length; i++)] with [n] items left from
    [i]; [responseData] and [returnData] are the two variables declared
    outside the loop. *)
Fixpoint loop (resource operation : json) (n i : nat)
  (responseData : json) (returnData : list json) : M Finish :=
  match n with
  | 0 => ret (Collected returnData)
  | S n' =>
      flow <- dispatch resource operation i responseData ;;
      match flow with
      | Return output => ret (Returned output)
      | Next responseData' =>
          loop resource operation n' (S i) responseData'
            (push responseData' returnData)
      end
  end.

(** The loop of [execute] from its start: the tags are read once, at
    index 0, before the loop. *)
Definition collect : M Finish :=
  let resource := param h "resource" 0 in
  let operation := param h "operation" 0 in
  loop resource operation (length (items h)) 0 JUndefined [].

(** [execute]: the loop, then [return [this.helpers.returnJsonArray(returnData)]]. *)
Definition execute : M (list (list json)) :=
  finish <- collect ;;
  match finish with
  | Returned output => ret output
  | Collected returnData => ret [returnJsonArray h returnData]
  end.

End Node.

(* ===================================================================== *)
(** ** Vocabulary of the properties *)
(* ===================================================================== *)

(** The resources with an update branch in [dispatch]. *)
Definition updatable : list string :=
  ["bill"; "customer"; "employee"; "estimate"; "invoice"; "payment";
   "vendor"].

(** The denormalized reference an update of the resource carries. *)
Definition referenceOf (r : string) : option string :=
  if String.eqb r "bill" then Some "VendorRef"
  else if String.eqb r "estimate" then Some "CustomerRef"
  else if String.eqb r "invoice" then Some "CustomerRef"
  else if String.eqb r "payment" then Some "CustomerRef"
  else None.

(** The resources whose create takes lines. *)
Definition lineResources : list string := ["bill"; "estimate"; "invoice"].

(** The resources whose get has a download flag. *)
Definition downloadable : list string := ["estimate"; "invoice"; "payment"].

(** The branches that echo a SyncToken: every update, and the delete and
    void of invoice and payment. *)
Definition mutations : list (string * string) :=
  map (fun r => (r, "update")) updatable ++
  [("invoice", "delete"); ("payment", "delete");
   ("invoice", "void"); ("payment", "void")].

(** The (resource, operation) pairs with a branch in [dispatch]. *)
Definition handlers : list (string * list string) :=
  [("bill", ["create"; "get"; "getAll"; "update"]);
   ("customer", ["create"; "get"; "getAll"; "update"]);
   ("employee", ["create"; "get"; "getAll"; "update"]);
   ("estimate", ["create"; "get"; "getAll"; "update"]);
   ("invoice",
    ["create"; "delete"; "get"; "getAll"; "send"; "update"; "void"]);
   ("item", ["get"; "getAll"]);
   ("payment",
    ["create"; "delete"; "get"; "getAll"; "send"; "update"; "void"]);
   ("vendor", ["create"; "get"; "getAll"; "update"])].

Definition wired (resource operation : json) : bool :=
  existsb (fun ro => strictEqStr resource (fst ro)
                     && existsb (strictEqStr operation) (snd ro)) handlers.

(** [v.k1.k2...], [undefined] as soon as a step is not an object. *)
Fixpoint path (ks : list string) (v : json) : json :=
  match ks with
  | [] => v
  | k :: ks' =>
      match v with
      | JObj o => path ks' (get k o)
      | _ => JUndefined
      end
  end.

Definition isObject (v : json) : bool :=
  match v with JObj _ => true | _ => false end.

(** The entity read by an update has the reference the update copies. *)
Definition hasReference (r : string) (entity : obj) : bool :=
  match referenceOf r with
  | Some ref => isObject (get ref entity)
  | None => true
  end.

(** The identity fields an update body starts with. *)
Definition identityFields : list string := ["Id"; "SyncToken"; "sparse"].

(** Where a mutation echoes the SyncToken: the query string for void, the
    body for update and delete. *)
Definition echoedToken (operation : string) (req : Request) : json :=
  if String.eqb operation "void"
  then get "SyncToken" (qs req)
  else get "SyncToken" (body req).

(** A bill line lacks the account id its detail type requires. *)
Definition accountMissing (line : obj) : Prop :=
  get "DetailType" line = JStr "AccountBasedExpenseLineDetail"
  /\ get "accountId" line = JUndefined.

(** The resource's [forEach] finds a line without the id it requires. *)
Definition refMissing (r : string) (line : obj) : bool :=
  if String.eqb r "bill"
  then (strictEqStr (get "DetailType" line) "AccountBasedExpenseLineDetail"
        && isUndefined (get "accountId" line))
       || (strictEqStr (get "DetailType" line) "ItemBasedExpenseLineDetail"
           && isUndefined (get "itemId" line))
  else strictEqStr (get "DetailType" line) "SalesItemLineDetail"
       && isUndefined (get "itemId" line).

(** The host with other parameter values. *)
Definition withParam (h : Host) (p : string -> nat -> json) : Host :=
  mkHost (items h) p (lineParam h) (realmId h) (server h)
    (populateFields h) (handleListing h) (handleBinaryData h)
    (returnJsonArray h).

(** The dispatcher as the specification words it: each item routed by its
    own resource and operation tags. *)
Fixpoint loopPerItem (h : Host) (n i : nat)
  (responseData : json) (returnData : list json) : M Finish :=
  match n with
  | 0 => ret (Collected returnData)
  | S n' =>
      flow <- dispatch h (param h "resource" i) (param h "operation" i) i
                responseData ;;
      match flow with
      | Return output => ret (Returned output)
      | Next responseData' =>
          loopPerItem h n' (S i) responseData'
            (push responseData' returnData)
      end
  end.

Definition collectPerItem (h : Host) : M Finish :=
  loopPerItem h (length (items h)) 0 JUndefined [].

(* ===================================================================== *)
(** ** Concrete hosts *)
(* ===================================================================== *)

(** Modelled from the spec: the pass-through case of [populateFields]
    (section 4.2): every field of the mapping is written onto the body
    under its own name. *)
Definition assignFields (b : obj) (fields resource : json) : obj :=
  match fields with
  | JObj fs => fold_left (fun acc kv => set (fst kv) (snd kv) acc) fs b
  | _ => b
  end.

(** Parameters given as a table of (name, index, value). *)
Fixpoint lookupParam (tbl : list (string * nat * json)) (name : string)
  (i : nat) : json :=
  match tbl with
  | [] => JUndefined
  | (name', i', v) :: tbl' =>
      if String.eqb name name' && Nat.eqb i i' then v
      else lookupParam tbl' name i
  end.

(** An API that answers every request with one entity of the given kind,
    whose SyncToken is computed from the requests served so far. *)
Definition apiStub (kind : string) (token : Trace -> json)
  : Trace -> Request -> json + json :=
  fun t _ =>
    inr (JObj [(kind,
                JObj [("SyncToken", token t);
                      ("CustomerRef",
                       JObj [("name", JStr "Ann"); ("value", JStr "7")]);
                      ("VendorRef",
                       JObj [("name", JStr "Acme"); ("value", JStr "8")])])]).

(** The revision the stub reports: the number of requests served. *)
Definition revision (t : Trace) : json :=
  JStr (decimal (Z.of_nat (length t))).

Definition stubHost (n : nat) (tbl : list (string * nat * json))
  (lines : nat -> list obj) (api : Trace -> Request -> json + json) : Host :=
  mkHost (repeat (JObj []) n) (lookupParam tbl) lines "C1" api assignFields
    (fun _ _ _ => ret (JArr []))
    (fun _ i c r id =>
       ret [[JObj [("binary",
                    JStr (c ++ "/" ++ toStr r ++ "/" ++ toStr id ++ "/pdf"))]]])
    (map (fun d => JObj [("json", d)])).

(** Invoice update on id "55" with an empty [updateFields]. *)
Definition invoice55 : Host :=
  stubHost 1
    [("resource", 0, JStr "invoice"); ("operation", 0, JStr "update");
     ("invoiceId", 0, JStr "55"); ("updateFields", 0, JObj [])]
    (fun _ => []) (apiStub "Invoice" revision).


(** Estimate create with a line that lacks its description. *)
Definition estimateNoDescription : Host :=
  stubHost 1
    [("resource", 0, JStr "estimate"); ("operation", 0, JStr "create");
     ("CustomerRef", 0, JStr "7"); ("additionalFields", 0, JObj [])]
    (fun _ => [[("DetailType", JStr "SalesItemLineDetail");
                ("Amount", JNum 100); ("itemId", JStr "3")]])
    (apiStub "Estimate" revision).

(** Bill create of the scenario of section 8: one account-based line with
    account id "42", vendor "7". *)
Definition billAccount : Host :=
  stubHost 1
    [("resource", 0, JStr "bill"); ("operation", 0, JStr "create");
     ("VendorRef", 0, JStr "7"); ("additionalFields", 0, JObj [])]
    (fun _ => [[("DetailType", JStr "AccountBasedExpenseLineDetail");
                ("Amount", JNum 100); ("Description", JStr "office");
                ("accountId", JStr "42")]])
    (apiStub "Bill" revision).

(** The same bill line without its account id. *)
Definition billNoAccount : Host :=
  stubHost 1
    [("resource", 0, JStr "bill"); ("operation", 0, JStr "create");
     ("VendorRef", 0, JStr "7"); ("additionalFields", 0, JObj [])]
    (fun _ => [[("DetailType", JStr "AccountBasedExpenseLineDetail");
                ("Amount", JNum 100); ("Description", JStr "office")]])
    (apiStub "Bill" revision).

(** Estimate create with an account-based line that has no account id. *)
Definition estimateNoAccount : Host :=
  stubHost 1
    [("resource", 0, JStr "estimate"); ("operation", 0, JStr "create");
     ("CustomerRef", 0, JStr "7"); ("additionalFields", 0, JObj [])]
    (fun _ => [[("DetailType", JStr "AccountBasedExpenseLineDetail");
                ("Amount", JNum 100); ("Description", JStr "office")]])
    (apiStub "Estimate" revision).

(** Two items with the tags item/create, a pair [dispatch] has no branch
    for. *)
Definition itemCreate : Host :=
  stubHost 2
    [("resource", 0, JStr "item"); ("operation", 0, JStr "create");
     ("resource", 1, JStr "item"); ("operation", 1, JStr "create")]
    (fun _ => []) (apiStub "Item" revision).

(** Two items with different tags: customer/get, then vendor/get. *)
Definition mixedTags : Host :=
  stubHost 2
    [("resource", 0, JStr "customer"); ("operation", 0, JStr "get");
     ("customerId", 0, JStr "1");
     ("resource", 1, JStr "vendor"); ("operation", 1, JStr "get");
     ("vendorId", 1, JStr "2"); ("customerId", 1, JStr "5")]
    (fun _ => []) (apiStub "Customer" revision).

(** The host's parameters with the tags of every item after the first
    replaced by [v]. *)
Definition retag (h : Host) (v : json) : string -> nat -> json :=
  fun name i =>
    if negb (Nat.eqb i 0)
       && (String.eqb name "resource" || String.eqb name "operation")
    then v
    else param h name i.

(** Payment void on id "9", the API reporting SyncToken "3". *)
Definition paymentVoid : Host :=
  stubHost 1
    [("resource", 0, JStr "payment"); ("operation", 0, JStr "void");
     ("paymentId", 0, JStr "9")]
    (fun _ => []) (apiStub "Payment" (fun _ => JStr "3")).

(** Two payment voids, on ids "9" and "10", against an API whose revision
    moves with every request it serves. *)
Definition twoVoids : Host :=
  stubHost 2
    [("resource", 0, JStr "payment"); ("operation", 0, JStr "void");
     ("paymentId", 0, JStr "9"); ("paymentId", 1, JStr "10")]
    (fun _ => []) (apiStub "Payment" revision).

(** Bill update on id "12" that changes the due date. *)
Definition billUpdate : Host :=
  stubHost 1
    [("resource", 0, JStr "bill"); ("operation", 0, JStr "update");
     ("billId", 0, JStr "12");
     ("updateFields", 0, JObj [("DueDate", JStr "2021-01-31")])]
    (fun _ => []) (apiStub "Bill" revision).

(** Customer update on id "4" that changes the display name. *)
Definition customerUpdate : Host :=
  stubHost 1
    [("resource", 0, JStr "customer"); ("operation", 0, JStr "update");
     ("customerId", 0, JStr "4");
     ("updateFields", 0, JObj [("DisplayName", JStr "Bob")])]
    (fun _ => []) (apiStub "Customer" revision).

(** What an update can have logged when it ends, however it ends: its
    read alone, or its read and the POST of a body that [populateFields]
    made from the identity fields (and [extra], the reference). *)
Definition updateLogged (h : Host) (r idName : string) (i : nat)
  (t t' : Trace) : Prop :=
  t' = (t ++ [entityRead (realmId h) (JStr r) (param h (r ++ "Id") i)])%list
  \/ exists resp extra,
       server h t (entityRead (realmId h) (JStr r) (param h (r ++ "Id") i))
         = inr resp
       /\ t' = (t ++ [entityRead (realmId h) (JStr r)
                        (param h (r ++ "Id") i);
                      mkRequest "POST"
                        ("/v3/company/" ++ realmId h ++ "/" ++ r) []
                        (populateFields h
                           ([("Id", param h idName i);
                             ("SyncToken",
                              path [capitalCase r; "SyncToken"] resp);
                             ("sparse", JBool true)] ++ extra)
                           (param h "updateFields" i) (JStr r))])%list.

(** Three invoice gets; the second one asks for the download. *)
Definition downloadSecond : Host :=
  stubHost 3
    [("resource", 0, JStr "invoice"); ("operation", 0, JStr "get");
     ("invoiceId", 0, JStr "1"); ("download", 0, JBool false);
     ("invoiceId", 1, JStr "2"); ("download", 1, JBool true);
     ("invoiceId", 2, JStr "3"); ("download", 2, JBool false)]
    (fun _ => []) (apiStub "Invoice" revision).

(** The parameters in which every item carries the tags of the first. *)
Definition firstTags (h : Host) : string -> nat -> json :=
  fun name i =>
    if String.eqb name "resource" || String.eqb name "operation"
    then param h name 0
    else param h name i.

(** [execute] over the dispatcher that routes each item by its own tags. *)
Definition executePerItem (h : Host) : M (list (list json)) :=
  finish <- collectPerItem h ;;
  match finish with
  | Returned output => ret output
  | Collected returnData => ret [returnJsonArray h returnData]
  end.

(** Two vendor gets; the second item carries the tags customer/get. *)
Definition vendorThenCustomerTags : Host :=
  stubHost 2
    [("resource", 0, JStr "vendor"); ("operation", 0, JStr "get");
     ("vendorId", 0, JStr "1");
     ("resource", 1, JStr "customer"); ("operation", 1, JStr "get");
     ("vendorId", 1, JStr "2"); ("customerId", 1, JStr "5")]
    (fun _ => []) (apiStub "Vendor" revision).

(** Customer update whose [updateFields] names sparse. *)
Definition customerUpdateUnsparse : Host :=
  stubHost 1
    [("resource", 0, JStr "customer"); ("operation", 0, JStr "update");
     ("customerId", 0, JStr "4");
     ("updateFields", 0,
      JObj [("sparse", JBool false); ("DisplayName", JStr "Bob")])]
    (fun _ => []) (apiStub "Customer" revision).

(** Customer update whose [updateFields] names SyncToken. *)
Definition customerUpdateStale : Host :=
  stubHost 1
    [("resource", 0, JStr "customer"); ("operation", 0, JStr "update");
     ("customerId", 0, JStr "4");
     ("updateFields", 0, JObj [("SyncToken", JStr "stale")])]
    (fun _ => []) (apiStub "Customer" revision).

(** Bill update whose [updateFields] names VendorRef. *)
Definition billUpdateVendor : Host :=
  stubHost 1
    [("resource", 0, JStr "bill"); ("operation", 0, JStr "update");
     ("billId", 0, JStr "12");
     ("updateFields", 0, JObj [("VendorRef", JStr "55")])]
    (fun _ => []) (apiStub "Bill" revision).

(* ===================================================================== *)
(** ** Vocabulary of the further properties *)
(* ===================================================================== *)

(** The eight resources of the node. *)
Definition resources : list string :=
  ["bill"; "customer"; "employee"; "estimate"; "invoice"; "item";
   "payment"; "vendor"].

(** The resources whose create takes no lines. *)
Definition plainCreates : list string :=
  ["customer"; "employee"; "payment"; "vendor"].

(** The fields such a create starts its body with. *)
Definition createIdentity (h : Host) (r : string) (i : nat) : obj :=
  if String.eqb r "employee"
  then [("FamilyName", param h "FamilyName" i);
        ("GivenName", param h "GivenName" i)]
  else if String.eqb r "payment"
  then [("CustomerRef", JObj [("value", param h "CustomerRef" i)]);
        ("TotalAmt", param h "TotalAmt" i)]
  else [("DisplayName", param h "displayName" i)].

(** The resources with send, delete and void. *)
Definition sendables : list string := ["invoice"; "payment"].

(** The single-entity GET of the get branches. *)
Definition getRequest (h : Host) (r : string) (i : nat) : Request :=
  mkRequest "GET"
    ("/v3/company/" ++ realmId h ++ "/" ++ r ++ "/"
     ++ toStr (param h (r ++ "Id") i))
    [] [].

(** What a get makes of the API's answer: the rejection is thrown, the
    entity is read under the capitalized resource name. *)
Definition unwrapped (r : string) (answer : json + json) : Result Flow :=
  match answer with
  | inl failure => Err (UpstreamError failure)
  | inr JUndefined | inr JNull => Err TypeError
  | inr (JObj o) => Ok (Next (get (capitalCase r) o))
  | inr _ => Ok (Next JUndefined)
  end.

(** The requests one item may issue: at most two, each addressed below
    the resource's own endpoint. *)
Definition boundedRequests (h : Host) (resource : json) (sent : Trace)
  : Prop :=
  length sent <= 2
  /\ Forall (fun req =>
               prefix (resourceEndpoint h resource) (endpoint req) = true)
       sent.

(** An API that rejects every request. *)
Definition apiDown : Trace -> Request -> json + json :=
  fun _ _ => inl (JStr "503").

(** An API that answers every request with an empty envelope. *)
Definition apiBlank : Trace -> Request -> json + json :=
  fun _ _ => inr (JObj []).

(** A customer get on id "4" against the blank API. *)
Definition customerGetBlank : Host :=
  stubHost 1
    [("resource", 0, JStr "customer"); ("operation", 0, JStr "get");
     ("customerId", 0, JStr "4")]
    (fun _ => []) apiBlank.

(** An invoice sent to an address. *)
Definition invoiceSend : Host :=
  stubHost 1
    [("resource", 0, JStr "invoice"); ("operation", 0, JStr "send");
     ("invoiceId", 0, JStr "21"); ("email", 0, JStr "ann@example.com")]
    (fun _ => []) (apiStub "Invoice" revision).

(** A payment create with a memo among the additional fields. *)
Definition paymentCreate : Host :=
  stubHost 1
    [("resource", 0, JStr "payment"); ("operation", 0, JStr "create");
     ("CustomerRef", 0, JStr "7"); ("TotalAmt", 0, JNum 250);
     ("additionalFields", 0, JObj [("PrivateNote", JStr "cash")])]
    (fun _ => []) (apiStub "Payment" revision).

(** Estimate create with a sales line that lacks its item id. *)
Definition estimateNoItem : Host :=
  stubHost 1
    [("resource", 0, JStr "estimate"); ("operation", 0, JStr "create");
     ("CustomerRef", 0, JStr "7"); ("additionalFields", 0, JObj [])]
    (fun _ => [[("DetailType", JStr "SalesItemLineDetail");
                ("Amount", JNum 100); ("Description", JStr "hours")]])
    (apiStub "Estimate" revision).

(** Two vendor listings; the listing helper returns two records each
    time, without a request of its own. *)
Definition vendorListing : Host :=
  mkHost [JObj []; JObj []]
    (lookupParam
       [("resource", 0, JStr "vendor"); ("operation", 0, JStr "getAll")])
    (fun _ => []) "C1" apiBlank assignFields
    (fun i _ _ =>
       ret (JArr [JObj [("Id", JNum (Z.of_nat i))];
                  JObj [("Id", JNum (Z.of_nat i + 10))]]))
    (fun _ _ _ _ _ => ret [])
    (map (fun d => JObj [("json", d)])).

(** Two customer updates; the second has nothing to update. *)
Definition secondUpdateEmpty : Host :=
  stubHost 2
    [("resource", 0, JStr "customer"); ("operation", 0, JStr "update");
     ("customerId", 0, JStr "4");
     ("updateFields", 0, JObj [("DisplayName", JStr "Bob")]);
     ("customerId", 1, JStr "5"); ("updateFields", 1, JObj [])]
    (fun _ => []) (apiStub "Customer" revision).

(** The log [t'] is the log [t] followed by requests within the bound. *)
Definition sendsBounded (h : Host) (resource : json) (t t' : Trace) : Prop :=
  exists sent, t' = (t ++ sent)%list /\ boundedRequests h resource sent.

(** An invoice delete on id "21". *)
Definition invoiceDelete : Host :=
  stubHost 1
    [("resource", 0, JStr "invoice"); ("operation", 0, JStr "delete");
     ("invoiceId", 0, JStr "21")]
    (fun _ => []) (apiStub "Invoice" revision).

(** An invoice void on id "21". *)
Definition invoiceVoid : Host :=
  stubHost 1
    [("resource", 0, JStr "invoice"); ("operation", 0, JStr "void");
     ("invoiceId", 0, JStr "21")]
    (fun _ => []) (apiStub "Invoice" revision).

(** A vendor update against an API that is down. *)
Definition vendorUpdateDown : Host :=
  stubHost 1
    [("resource", 0, JStr "vendor"); ("operation", 0, JStr "update");
     ("vendorId", 0, JStr "8"); ("updateFields", 0, JObj [])]
    (fun _ => []) apiDown.

(* ===================================================================== *)
(** ** Basic facts *)
(* ===================================================================== *)

Lemma strictEqStr_true (v : json) (s : string) :
  strictEqStr v s = true -> v = JStr s.
Proof.
  destruct v; simpl; try discriminate.
  intros E. apply String.eqb_eq in E. now subst.
Qed.

Lemma isUndefined_true (v : json) : isUndefined v = true -> v = JUndefined.
Proof. destruct v; simpl; congruence. Qed.

Lemma isObject_true (v : json) : isObject v = true -> exists o, v = JObj o.
Proof. destruct v; simpl; try discriminate. intros _. now exists o. Qed.

Lemma get_set_other (k k' : string) (v : json) (o : obj) :
  k <> k' -> get k (set k' v o) = get k o.
Proof.
  intros N. induction o as [|[k0 v0] o IH]; simpl.
  - destruct (String.eqb_spec k k'); congruence.
  - destruct (String.eqb_spec k' k0); simpl.
    + subst. destruct (String.eqb_spec k k0); congruence.
    + now rewrite IH.
Qed.

Lemma get_set_same (k : string) (v : json) (o : obj) :
  get k (set k v o) = v.
Proof.
  induction o as [|[k0 v0] o IH]; simpl.
  - now rewrite String.eqb_refl.
  - destruct (String.eqb_spec k k0); simpl.
    + subst. now rewrite String.eqb_refl.
    + destruct (String.eqb_spec k k0); congruence.
Qed.

(** [assignFields] leaves alone every key the mapping does not name. *)
Lemma get_assignFields_other (k : string) (fs : obj) (b : obj) (r : json) :
  ~ In k (map fst fs) -> get k (assignFields b (JObj fs) r) = get k b.
Proof.
  unfold assignFields. revert b.
  induction fs as [|[k0 v0] fs IH]; intros b N; simpl.
  - reflexivity.
  - rewrite IH.
    + apply get_set_other. intros E. apply N. simpl. now left.
    + intros I. apply N. simpl. now right.
Qed.

Section Runs.

Variable h : Host.

Lemma request_trace (m e : string) (q b : obj) (t : Trace) :
  snd (quickBooksApiRequest h m e q b t) = (t ++ [mkRequest m e q b])%list.
Proof.
  unfold quickBooksApiRequest. now destruct (server h t _).
Qed.

Lemma request_ok (m e : string) (q b : obj) (t : Trace) (resp : json) :
  server h t (mkRequest m e q b) = inr resp ->
  quickBooksApiRequest h m e q b t = (Ok resp, (t ++ [mkRequest m e q b])%list).
Proof. unfold quickBooksApiRequest. now intros ->. Qed.

Lemma getSyncToken_ok (i : nat) (c : string) (r : string) (t : Trace)
  (resp entity : obj) :
  server h t (entityRead c (JStr r) (param h (r ++ "Id") i)) = inr (JObj resp) ->
  get (capitalCase r) resp = JObj entity ->
  getSyncToken h i c (JStr r) t =
    (Ok (get "SyncToken" entity),
     (t ++ [entityRead c (JStr r) (param h (r ++ "Id") i)])%list).
Proof.
  intros S E. unfold getSyncToken, bind. simpl.
  unfold entityRead in S. simpl in S.
  rewrite (request_ok _ _ _ _ _ _ S). simpl. now rewrite E.
Qed.

Lemma getRefAndSyncToken_ok (i : nat) (c : string) (r ref : string)
  (t : Trace) (resp entity refo : obj) :
  server h t (entityRead c (JStr r) (param h (r ++ "Id") i)) = inr (JObj resp) ->
  get (capitalCase r) resp = JObj entity ->
  get ref entity = JObj refo ->
  getRefAndSyncToken h i c (JStr r) ref t =
    (Ok (JObj [("name", get "name" refo); ("value", get "value" refo)],
         get "SyncToken" entity),
     (t ++ [entityRead c (JStr r) (param h (r ++ "Id") i)])%list).
Proof.
  intros S E R. unfold getRefAndSyncToken, bind. simpl.
  unfold entityRead in S. simpl in S.
  rewrite (request_ok _ _ _ _ _ _ S). simpl. rewrite E. simpl.
  now rewrite R.
Qed.

End Runs.


Lemma bind_ok_trace {A B} (m : M A) (k : A -> M B) (t t' : Trace) (a : A) :
  m t = (Ok a, t') -> snd (bind m k t) = snd (k a t').
Proof. unfold bind. now intros ->. Qed.

Lemma bind_err_trace {A B} (m : M A) (k : A -> M B) (t t' : Trace)
  (e : Error) :
  m t = (Err e, t') -> snd (bind m k t) = t'.
Proof. unfold bind. now intros ->. Qed.

Lemma bind_ret_trace {A B} (a : A) (k : A -> M B) (t : Trace) :
  snd (bind (ret a) k t) = snd (k a t).
Proof. reflexivity. Qed.

(* ===================================================================== *)
(** ** Proof steps *)
(* ===================================================================== *)

(** The cases of a membership in a literal list, with the name substituted. *)
Ltac cases_in H :=
  simpl in H;
  repeat (destruct H as [H | H]; [try (symmetry in H; subst) | ]);
  try contradiction.

(** Decide the next tag test of [dispatch] on a tag that is still a
    variable; in the matching case the tag becomes the literal. *)
Ltac split_tag :=
  match goal with
  | |- context [strictEqStr ?v ?lit] =>
      is_var v;
      let E := fresh "E" in
      destruct (strictEqStr v lit) eqn:E;
      [ apply strictEqStr_true in E; subst v | ]
  end.

(** Follow [dispatch] to the branch of literal tags. *)
Ltac route :=
  unfold dispatch; cbn [strictEqStr String.eqb Ascii.eqb Bool.eqb].

(* ===================================================================== *)
(** ** Updates with an empty [updateFields] *)
(* ===================================================================== *)

(** C1, as amended.  On every resource with an update, an empty
    [updateFields] makes the update fail with the error that names the
    resource, but only after the SyncToken (or reference and SyncToken)
    read: when that read succeeds it is the one request issued, and no
    mutation request follows. *)
Theorem update_empty_fields_fails_after_read
  (h : Host) (r : string) (i : nat) (rd : json) (t : Trace)
  (resp entity : obj) :
  In r updatable ->
  isEmpty (param h "updateFields" i) = true ->
  server h t (entityRead (realmId h) (JStr r) (param h (r ++ "Id") i))
    = inr (JObj resp) ->
  get (capitalCase r) resp = JObj entity ->
  hasReference r entity = true ->
  dispatch h (JStr r) (JStr "update") i rd t =
    (Err (ValidationError
            ("Please enter at least one field to update for the "
             ++ r ++ ".")),
     (t ++ [entityRead (realmId h) (JStr r) (param h (r ++ "Id") i)])%list).
Proof.
  intros I E S G R.
  cases_in I; unfold hasReference in R; simpl in R;
    try (apply isObject_true in R; destruct R as [refo R]);
    unfold dispatch; simpl;
    unfold next, updatePlain, updateWithRef, updateFrom, companyId, bind;
    first [ rewrite (getSyncToken_ok h i _ _ t resp entity S G)
          | rewrite (getRefAndSyncToken_ok h i _ _ _ t resp entity refo S G R) ];
    simpl; rewrite E; reflexivity.
Qed.

Lemma update_empty_fields_fails_after_read_witness :
  In "invoice" updatable
  /\ isEmpty (param invoice55 "updateFields" 0) = true
  /\ dispatch invoice55 (JStr "invoice") (JStr "update") 0 JUndefined [] =
       (Err (ValidationError
               "Please enter at least one field to update for the invoice."),
        [entityRead "C1" (JStr "invoice") (JStr "55")]).
Proof.
  split; [simpl; tauto | split; [reflexivity | ]].
  apply (update_empty_fields_fails_after_read invoice55 "invoice" 0
           JUndefined []
           [("Invoice",
             JObj [("SyncToken", JStr "0");
                   ("CustomerRef",
                    JObj [("name", JStr "Ann"); ("value", JStr "7")]);
                   ("VendorRef",
                    JObj [("name", JStr "Acme"); ("value", JStr "8")])])]
           [("SyncToken", JStr "0");
            ("CustomerRef", JObj [("name", JStr "Ann"); ("value", JStr "7")]);
            ("VendorRef", JObj [("name", JStr "Acme"); ("value", JStr "8")])]).
  - simpl; tauto.
  - reflexivity.
  - reflexivity.
  - reflexivity.
  - reflexivity.
Defined.

(** The invoice update on id "55" with an empty [updateFields] has issued
    the entity read by the time it fails: the log is not empty. *)
Lemma update_empty_fields_read_issued :
  isEmpty (param invoice55 "updateFields" 0) = true
  /\ execute invoice55 [] =
       (Err (ValidationError
               "Please enter at least one field to update for the invoice."),
        [mkRequest "GET" "/v3/company/C1/invoice/55" [] []])
  /\ snd (execute invoice55 []) <> [].
Proof.
  split; [reflexivity | split; [reflexivity | ]].
  vm_compute. discriminate.
Qed.

(* ===================================================================== *)
(** ** Line validation on create *)
(* ===================================================================== *)

Lemma existsb_lineIncomplete (lines : list obj) (line : obj) :
  In line lines ->
  get "DetailType" line = JUndefined
  \/ get "Amount" line = JUndefined
  \/ get "Description" line = JUndefined ->
  existsb lineIncomplete lines = true.
Proof.
  intros I D. apply existsb_exists. exists line. split; [assumption|].
  unfold lineIncomplete.
  destruct D as [D | [D | D]]; rewrite D; simpl;
    repeat rewrite orb_true_r; reflexivity.
Qed.

(** C6.  On bill, estimate and invoice create alike, an empty line
    sequence, or a line with no detail type, no amount or no description,
    makes the create fail with a validation error while the request log
    is still what it was: before any request and before the lines are
    transformed. *)
Theorem create_lines_validated_first
  (h : Host) (r : string) (i : nat) (rd : json) (t : Trace) :
  In r lineResources ->
  lineParam h i = []
  \/ (exists line, In line (lineParam h i)
        /\ (get "DetailType" line = JUndefined
            \/ get "Amount" line = JUndefined
            \/ get "Description" line = JUndefined)) ->
  dispatch h (JStr r) (JStr "create") i rd t =
    (Err (ValidationError
            (if Nat.eqb (length (lineParam h i)) 0
             then "Please enter at least one line for the " ++ r ++ "."
             else
          "Please enter detail type, amount and description for every line.")),
     t).
Proof.
  intros I C.
  cases_in I; unfold dispatch; simpl;
    unfold next, createWithLines, bind;
    (destruct C as [C | [line [L D]]];
     [ rewrite C; reflexivity
     | rewrite (existsb_lineIncomplete _ _ L D);
       destruct (lineParam h i); [destruct L | reflexivity] ]).
Qed.

Lemma create_lines_validated_first_witness :
  In "estimate" lineResources
  /\ (exists line, In line (lineParam estimateNoDescription 0)
        /\ (get "DetailType" line = JUndefined
            \/ get "Amount" line = JUndefined
            \/ get "Description" line = JUndefined))
  /\ dispatch estimateNoDescription (JStr "estimate") (JStr "create") 0
       JUndefined [] =
       (Err (ValidationError
          "Please enter detail type, amount and description for every line."),
        []).
Proof.
  assert (W : exists line, In line (lineParam estimateNoDescription 0)
        /\ (get "DetailType" line = JUndefined
            \/ get "Amount" line = JUndefined
            \/ get "Description" line = JUndefined)).
  { eexists. split; [left; reflexivity | right; right; reflexivity]. }
  split; [simpl; tauto | split; [exact W | ]].
  apply (create_lines_validated_first estimateNoDescription "estimate" 0
           JUndefined []).
  - simpl; tauto.
  - right. exact W.
Defined.

(* ===================================================================== *)
(** ** Account-based lines *)
(* ===================================================================== *)

Lemma billLineRefs_missing_account (lines : list obj) (t : Trace) :
  (exists line, In line lines /\ accountMissing line) ->
  exists msg, billLineRefs lines t = (Err (ValidationError msg), t).
Proof.
  induction lines as [|l lines IH]; intros [line [I [D A]]].
  - destruct I.
  - simpl.
    destruct (strictEqStr (get "DetailType" l) "AccountBasedExpenseLineDetail"
              && isUndefined (get "accountId" l)) eqn:E1.
    + eexists. reflexivity.
    + destruct (strictEqStr (get "DetailType" l) "ItemBasedExpenseLineDetail"
                && isUndefined (get "itemId" l)) eqn:E2.
      * eexists. reflexivity.
      * destruct I as [I | I].
        -- subst l. rewrite D, A in E1. discriminate.
        -- apply IH. exists line. repeat split; assumption.
Qed.

Lemma billLineRefs_pass (lines : list obj) (t : Trace) :
  existsb (refMissing "bill") lines = false ->
  billLineRefs lines t = (Ok tt, t).
Proof.
  induction lines as [|l lines IH]; simpl; intros E.
  - reflexivity.
  - apply orb_false_elim in E. destruct E as [E1 E2].
    unfold refMissing in E1. simpl in E1.
    apply orb_false_elim in E1. destruct E1 as [Ea Eb].
    rewrite Ea, Eb. now apply IH.
Qed.

Lemma salesLineRefs_pass (r : string) (lines : list obj) (t : Trace) :
  String.eqb r "bill" = false ->
  existsb (refMissing r) lines = false ->
  salesLineRefs lines t = (Ok tt, t).
Proof.
  intros N.
  induction lines as [|l lines IH]; simpl; intros E.
  - reflexivity.
  - apply orb_false_elim in E. destruct E as [E1 E2].
    unfold refMissing in E1. rewrite N in E1.
    rewrite E1. now apply IH.
Qed.

Lemma processLine_account (line : obj) :
  get "DetailType" line = JStr "AccountBasedExpenseLineDetail" ->
  path ["AccountBasedExpenseLineDetail"; "AccountRef"; "value"]
    (processLine line) = get "accountId" line.
Proof. intros D. unfold processLine. rewrite D. reflexivity. Qed.

Lemma nth_map_processLine (lines : list obj) (n : nat) (line : obj) :
  nth_error lines n = Some line ->
  nth n (map processLine lines) JUndefined = processLine line.
Proof.
  revert n. induction lines as [|l lines IH]; intros [|n]; simpl;
    try discriminate.
  - now intros [= ->].
  - apply IH.
Qed.

Lemma createWithLines_run (h : Host) (res : json) (refName : string)
  (lineRefs : list obj -> M unit) (i : nat) (t : Trace) :
  createWithLines h res refName lineRefs i t =
    match lineParam h i with
    | [] =>
        (Err (ValidationError
                ("Please enter at least one line for the "
                 ++ toStr res ++ ".")), t)
    | _ :: _ =>
        if existsb lineIncomplete (lineParam h i)
        then (Err (ValidationError
          "Please enter detail type, amount and description for every line."),
              t)
        else
          match lineRefs (lineParam h i) t with
          | (Ok _, t') =>
              createFrom h res
                (set "Line"
                   (processLines
                      [(refName, JObj [("value", param h refName i)])]
                      (lineParam h i) res)
                   [(refName, JObj [("value", param h refName i)])]) i t'
          | (Err e, t') => (Err e, t')
          end
    end.
Proof.
  unfold createWithLines, bind.
  destruct (lineParam h i) as [|l ls]; [reflexivity|].
  cbn [length Nat.eqb]. unfold ret at 1.
  destruct (existsb lineIncomplete (l :: ls)); reflexivity.
Qed.

Lemma createFrom_trace (h : Host) (res : json) (b : obj) (i : nat)
  (t : Trace) :
  snd (createFrom h res b i t) =
    (t ++ [mkRequest "POST" (resourceEndpoint h res) []
             (populateFields h b (param h "additionalFields" i) res)])%list.
Proof.
  unfold createFrom, bind.
  pose proof (request_trace h "POST" (resourceEndpoint h res) []
                (populateFields h b (param h "additionalFields" i) res) t)
    as T.
  destruct (quickBooksApiRequest h "POST" _ [] _ t) as [[resp|e] t'];
    simpl in T; subst t'; [|reflexivity].
  unfold unwrap, member. destruct resp; reflexivity.
Qed.

Lemma next_trace (m : M json) (t : Trace) : snd (next m t) = snd (m t).
Proof. unfold next, bind. destruct (m t) as [[a|e] t']; reflexivity. Qed.

Lemma next_err (m : M json) (t t' : Trace) (e : Error) :
  m t = (Err e, t') -> next m t = (Err e, t').
Proof. unfold next, bind. now intros ->. Qed.

(** C2, as amended.  On bill create, a line whose detail type is
    AccountBasedExpenseLineDetail and which has no account id makes the
    create fail with a validation error before any request.  Estimate and
    invoice create have no such requirement: their line check concerns
    the item id of SalesItemLineDetail lines only.  On all three, once
    the line checks pass the create request is issued, and a line of that
    detail type appears at its position in the body's Line array with
    AccountBasedExpenseLineDetail.AccountRef.value equal to its account
    id (populateFields leaving Line in place). *)
Theorem account_line_checked_on_bill_nested_on_all :
  (forall (h : Host) (i : nat) (rd : json) (t : Trace),
      (exists line, In line (lineParam h i) /\ accountMissing line) ->
      exists msg,
        dispatch h (JStr "bill") (JStr "create") i rd t =
          (Err (ValidationError msg), t))
  /\
  (forall (h : Host) (r : string) (i : nat) (rd : json) (t : Trace),
      In r lineResources ->
      lineParam h i <> [] ->
      existsb lineIncomplete (lineParam h i) = false ->
      existsb (refMissing r) (lineParam h i) = false ->
      (forall b, get "Line" (populateFields h b (param h "additionalFields" i)
                               (JStr r)) = get "Line" b) ->
      exists req out,
        snd (dispatch h (JStr r) (JStr "create") i rd t) = (t ++ [req])%list
        /\ method req = "POST"
        /\ endpoint req = "/v3/company/" ++ realmId h ++ "/" ++ r
        /\ get "Line" (body req) = JArr out
        /\ length out = length (lineParam h i)
        /\ forall n line,
             nth_error (lineParam h i) n = Some line ->
             get "DetailType" line = JStr "AccountBasedExpenseLineDetail" ->
             path ["AccountBasedExpenseLineDetail"; "AccountRef"; "value"]
               (nth n out JUndefined) = get "accountId" line).
Proof.
  split.
  - intros h i rd t W.
    unfold dispatch; simpl.
    destruct (billLineRefs_missing_account (lineParam h i) t W) as [msg B].
    pose proof (createWithLines_run h (JStr "bill") "VendorRef" billLineRefs
                  i t) as Run.
    destruct (lineParam h i) as [|l ls] eqn:L.
    + destruct W as [line [[] _]].
    + destruct (existsb lineIncomplete (l :: ls)).
      * eexists. apply next_err. exact Run.
      * rewrite B in Run. eexists. apply next_err. exact Run.
  - intros h r i rd t I N C R K.
    assert (P : forall lineRefs,
               lineRefs (lineParam h i) t = (Ok tt, t) ->
               forall refName,
               snd (next (createWithLines h (JStr r) refName lineRefs i) t) =
               (t ++ [mkRequest "POST" ("/v3/company/" ++ realmId h ++ "/" ++ r)
                        []
                        (populateFields h
                           (set "Line"
                              (processLines
                                 [(refName, JObj [("value", param h refName i)])]
                                 (lineParam h i) (JStr r))
                              [(refName, JObj [("value", param h refName i)])])
                           (param h "additionalFields" i) (JStr r))])%list).
    { intros lineRefs Pass refName.
      rewrite next_trace, createWithLines_run.
      destruct (lineParam h i) as [|l ls] eqn:L; [contradiction|].
      rewrite C, Pass. apply createFrom_trace. }
    assert (Q : forall refName : string,
               get "Line"
                 (populateFields h
                    (set "Line"
                       (processLines
                          [(refName, JObj [("value", param h refName i)])]
                          (lineParam h i) (JStr r))
                       [(refName, JObj [("value", param h refName i)])])
                    (param h "additionalFields" i) (JStr r))
               = JArr (map processLine (lineParam h i))).
    { intros refName. rewrite K. now rewrite get_set_same. }
    assert (A : forall n line,
               nth_error (lineParam h i) n = Some line ->
               get "DetailType" line = JStr "AccountBasedExpenseLineDetail" ->
               path ["AccountBasedExpenseLineDetail"; "AccountRef"; "value"]
                 (nth n (map processLine (lineParam h i)) JUndefined)
               = get "accountId" line).
    { intros n line Nth D.
      rewrite (nth_map_processLine _ _ _ Nth).
      now apply processLine_account. }
    cases_in I;
      (eexists (mkRequest "POST" _ [] _), (map processLine (lineParam h i));
       split;
       [ unfold dispatch; simpl strictEqStr; cbv iota; apply P
       | split; [reflexivity
         | split; [reflexivity
           | split; [apply Q
             | split; [apply length_map | exact A]]]] ]).
    + now apply billLineRefs_pass.
    + now apply (salesLineRefs_pass "estimate").
    + now apply (salesLineRefs_pass "invoice").
Qed.

Lemma account_line_checked_on_bill_nested_on_all_witness :
  (exists msg,
      dispatch billNoAccount (JStr "bill") (JStr "create") 0 JUndefined [] =
        (Err (ValidationError msg), []))
  /\
  (exists req out,
      snd (dispatch billAccount (JStr "bill") (JStr "create") 0 JUndefined [])
        = ([] ++ [req])%list
      /\ method req = "POST"
      /\ endpoint req = "/v3/company/" ++ realmId billAccount ++ "/" ++ "bill"
      /\ get "Line" (body req) = JArr out
      /\ length out = length (lineParam billAccount 0)
      /\ forall n line,
           nth_error (lineParam billAccount 0) n = Some line ->
           get "DetailType" line = JStr "AccountBasedExpenseLineDetail" ->
           path ["AccountBasedExpenseLineDetail"; "AccountRef"; "value"]
             (nth n out JUndefined) = get "accountId" line).
Proof.
  split.
  - apply (proj1 account_line_checked_on_bill_nested_on_all
             billNoAccount 0 JUndefined []).
    eexists. split; [left; reflexivity | split; reflexivity].
  - apply (proj2 account_line_checked_on_bill_nested_on_all
             billAccount "bill" 0 JUndefined []).
    + simpl; tauto.
    + discriminate.
    + reflexivity.
    + reflexivity.
    + intros b. reflexivity.
Defined.

(** An estimate create whose only line is account-based and has no
    account id does not fail: the create request is issued. *)
Lemma estimate_account_id_not_required :
  (exists line, In line (lineParam estimateNoAccount 0)
                /\ accountMissing line)
  /\ snd (execute estimateNoAccount []) =
       [mkRequest "POST" "/v3/company/C1/estimate" []
          [("CustomerRef", JObj [("value", JStr "7")]);
           ("Line",
            JArr [JObj [("DetailType", JStr "AccountBasedExpenseLineDetail");
                        ("Amount", JNum 100);
                        ("Description", JStr "office");
                        ("AccountBasedExpenseLineDetail",
                         JObj [("AccountRef",
                                JObj [("value", JUndefined)])])]])]]
  /\ exists output, fst (execute estimateNoAccount []) = Ok output.
Proof.
  split; [|split].
  - eexists. split; [left; reflexivity | split; reflexivity].
  - reflexivity.
  - eexists. reflexivity.
Qed.

(* ===================================================================== *)
(** ** Pairs without a handler *)
(* ===================================================================== *)

Lemma dispatch_unwired (h : Host) (r o : json) (i : nat) (rd : json)
  (t : Trace) :
  wired r o = false ->
  dispatch h r o i rd t = (Ok (Next rd), t).
Proof.
  intros W. unfold dispatch.
  repeat first
    [ reflexivity
    | discriminate W
    | split_tag; cbn [strictEqStr String.eqb Ascii.eqb Bool.eqb] ].
Qed.

Lemma loop_unwired (h : Host) (r o : json) :
  wired r o = false ->
  forall (n i : nat) (returnData : list json) (t : Trace),
    loop h r o n i JUndefined returnData t =
      (Ok (Collected (returnData ++ repeat JUndefined n)%list), t).
Proof.
  intros W. induction n as [|n IH]; intros i returnData t; simpl.
  - now rewrite app_nil_r.
  - unfold bind. rewrite (dispatch_unwired h r o i JUndefined t W).
    rewrite IH. unfold push. now rewrite <- app_assoc.
Qed.

(** C4, as amended.  For every (resource, operation) pair without a
    branch, the run issues no request and raises no error for any item
    and goes on to the end, but the push after the cascade still runs: each
    item appends the unassigned [responseData], one [undefined] entry, to
    the output sequence. *)
Theorem unwired_pair_pushes_undefined (h : Host) (t : Trace) :
  wired (param h "resource" 0) (param h "operation" 0) = false ->
  collect h t =
    (Ok (Collected (repeat JUndefined (length (items h)))), t)
  /\ execute h t =
       (Ok [returnJsonArray h (repeat JUndefined (length (items h)))], t).
Proof.
  intros W.
  assert (C : collect h t =
              (Ok (Collected (repeat JUndefined (length (items h)))), t)).
  { unfold collect. now rewrite (loop_unwired h _ _ W). }
  split; [exact C|].
  unfold execute, bind. now rewrite C.
Qed.

Lemma unwired_pair_pushes_undefined_witness :
  wired (param itemCreate "resource" 0) (param itemCreate "operation" 0)
    = false
  /\ collect itemCreate [] = (Ok (Collected [JUndefined; JUndefined]), [])
  /\ execute itemCreate [] =
       (Ok [[JObj [("json", JUndefined)]; JObj [("json", JUndefined)]]], []).
Proof.
  split; [reflexivity|].
  apply (unwired_pair_pushes_undefined itemCreate []). reflexivity.
Defined.

(** With the tags item/create, the output sequence is not left alone: it
    holds one [undefined] entry per input item. *)
Lemma item_create_appends_undefined :
  wired (JStr "item") (JStr "create") = false
  /\ collect itemCreate [] = (Ok (Collected [JUndefined; JUndefined]), [])
  /\ collect itemCreate [] <> (Ok (Collected []), []).
Proof.
  split; [reflexivity | split; [reflexivity | ]].
  vm_compute. discriminate.
Qed.

(* ===================================================================== *)
(** ** Routing *)
(* ===================================================================== *)

Section Routing.

Variable h : Host.
Variable p : string -> nat -> json.

(** The other parameter values differ from the host's in the tags only. *)
Hypothesis same_but_tags :
  forall name i,
    name <> "resource" -> name <> "operation" -> p name i = param h name i.

Lemma dispatch_ignores_item_tags (r o : json) (i : nat) (rd : json)
  (t : Trace) :
  dispatch (withParam h p) r o i rd t = dispatch h r o i rd t.
Proof.
  unfold dispatch.
  repeat first
    [ reflexivity
    | split_tag; cbn [strictEqStr String.eqb Ascii.eqb Bool.eqb] ];
  unfold next, createWithLines, createFrom, getEntity, getAll, updatePlain,
    updateWithRef, updateFrom, deleteEntity, voidEntity, sendEntity,
    getOrDownload, getEntity, getSyncToken, getRefAndSyncToken,
    quickBooksApiRequest, resourceEndpoint, companyId, entityRead, withParam;
  cbn [param lineParam items realmId server populateFields handleListing
       handleBinaryData toStr append method endpoint qs body];
  rewrite ?same_but_tags by congruence;
  reflexivity.
Qed.

Lemma loop_ignores_item_tags (r o : json) (n : nat) :
  forall (i : nat) (rd : json) (returnData : list json) (t : Trace),
    loop (withParam h p) r o n i rd returnData t =
    loop h r o n i rd returnData t.
Proof.
  induction n as [|n IH]; intros i rd returnData t; simpl.
  - reflexivity.
  - unfold bind. rewrite dispatch_ignores_item_tags.
    destruct (dispatch h r o i rd t) as [[[rd'|output]|e] t'];
      [apply IH | reflexivity | reflexivity].
Qed.

End Routing.

Lemma loop_routes_by_first_tags (h : Host) (n : nat) :
  forall (i : nat) (rd : json) (returnData : list json) (t : Trace),
    loop h (param h "resource" 0) (param h "operation" 0) n i rd returnData t
    = loopPerItem (withParam h (firstTags h)) n i rd returnData t.
Proof.
  induction n as [|n IH]; intros i rd returnData t; simpl.
  - reflexivity.
  - unfold bind.
    rewrite (dispatch_ignores_item_tags h (firstTags h)).
    + change (firstTags h "resource" i) with (param h "resource" 0).
      change (firstTags h "operation" i) with (param h "operation" 0).
      destruct (dispatch h (param h "resource" 0) (param h "operation" 0)
                  i rd t) as [[[rd'|output]|e] t'];
        [apply IH | reflexivity | reflexivity].
    + intros name j N1 N2. unfold firstTags.
      apply String.eqb_neq in N1, N2. now rewrite N1, N2.
Qed.

(** C3, as amended.  The dispatcher reads the resource tag and the
    operation tag once, from the first input item, before the loop, and
    routes every input item of the run by that one pair: the run is the
    run of the dispatcher that routes each item by its own tags, on the
    items with the first item's tags written on every one of them.  The
    tags of the later items are never read, so changing them changes
    nothing. *)
Theorem routing_fixed_by_first_item
  (h : Host) (p : string -> nat -> json) (t : Trace) :
  (forall name i,
      i = 0 \/ (name <> "resource" /\ name <> "operation") ->
      p name i = param h name i) ->
  execute h t = executePerItem (withParam h (firstTags h)) t
  /\ execute (withParam h p) t = execute h t.
Proof.
  intros A. split.
  - unfold execute, executePerItem, collect, collectPerItem, bind.
    rewrite loop_routes_by_first_tags. reflexivity.
  - assert (C : collect (withParam h p) t = collect h t).
    { unfold collect.
      rewrite loop_ignores_item_tags
        by (intros name i N1 N2; apply A; right; now split).
      cbn [withParam param items].
      now rewrite !A by (now left). }
    unfold execute, bind. rewrite C.
    destruct (collect h t) as [[[returnData|output]|e] t']; reflexivity.
Qed.

Lemma routing_fixed_by_first_item_witness :
  (forall name i,
      i = 0 \/ (name <> "resource" /\ name <> "operation") ->
      retag vendorThenCustomerTags (JStr "item") name i
      = param vendorThenCustomerTags name i)
  /\ retag vendorThenCustomerTags (JStr "item") "resource" 1
     <> param vendorThenCustomerTags "resource" 1
  /\ execute vendorThenCustomerTags [] =
     executePerItem
       (withParam vendorThenCustomerTags (firstTags vendorThenCustomerTags))
       []
  /\ execute
       (withParam vendorThenCustomerTags
          (retag vendorThenCustomerTags (JStr "item"))) [] =
     execute vendorThenCustomerTags [].
Proof.
  assert (A : forall name i,
             i = 0 \/ (name <> "resource" /\ name <> "operation") ->
             retag vendorThenCustomerTags (JStr "item") name i
             = param vendorThenCustomerTags name i).
  { intros name i [-> | [N1 N2]]; unfold retag.
    - reflexivity.
    - apply String.eqb_neq in N1, N2. rewrite N1, N2.
      now rewrite andb_false_r. }
  split; [exact A | split; [discriminate | ]].
  apply (routing_fixed_by_first_item vendorThenCustomerTags
           (retag vendorThenCustomerTags (JStr "item")) []).
  exact A.
Defined.

(** Two items tagged vendor/get and customer/get: both are routed as
    vendor/get, each with its own vendor id. *)
Example both_items_routed_as_first :
  snd (execute vendorThenCustomerTags []) =
    [mkRequest "GET" "/v3/company/C1/vendor/1" [] [];
     mkRequest "GET" "/v3/company/C1/vendor/2" [] []].
Proof. reflexivity. Qed.

(** Two items tagged customer/get and vendor/get: the second one is
    routed as customer/get too, where routing by each item's own tags
    would have read the vendor. *)
Lemma second_item_routed_by_first_tags :
  param mixedTags "resource" 1 = JStr "vendor"
  /\ snd (collect mixedTags []) =
       [mkRequest "GET" "/v3/company/C1/customer/1" [] [];
        mkRequest "GET" "/v3/company/C1/customer/5" [] []]
  /\ snd (collectPerItem mixedTags []) =
       [mkRequest "GET" "/v3/company/C1/customer/1" [] [];
        mkRequest "GET" "/v3/company/C1/vendor/2" [] []]
  /\ collect mixedTags [] <> collectPerItem mixedTags [].
Proof.
  split; [reflexivity | split; [reflexivity | split; [reflexivity | ]]].
  vm_compute. discriminate.
Qed.

(* ===================================================================== *)
(** ** The requests of update, delete and void *)
(* ===================================================================== *)

Section Mutations.

Variable h : Host.

(** A request followed by the unwrapping of its response logs that one
    request, whatever the response. *)
Lemma request_unwrap_trace (res : json) (m e : string) (q b : obj)
  (t : Trace) :
  snd ((responseData <- quickBooksApiRequest h m e q b ;;
        unwrap res responseData) t) = (t ++ [mkRequest m e q b])%list.
Proof.
  unfold bind.
  pose proof (request_trace h m e q b t) as T.
  destruct (quickBooksApiRequest h m e q b t) as [[resp|e'] t'];
    simpl in T; subst t'; [|reflexivity].
  unfold unwrap, member. destruct resp; reflexivity.
Qed.

Lemma updateFrom_trace (res : json) (b : obj) (i : nat) (t : Trace) :
  snd (updateFrom h res b i t) =
    if isEmpty (param h "updateFields" i) then t
    else (t ++ [mkRequest "POST" (resourceEndpoint h res) []
                  (populateFields h b (param h "updateFields" i) res)])%list.
Proof.
  unfold updateFrom. unfold bind at 1.
  destruct (isEmpty (param h "updateFields" i)); [reflexivity|].
  unfold ret at 1. apply request_unwrap_trace.
Qed.

(** The resolver always logs exactly its read; a token it returns is the
    SyncToken of the entity in the response to that read. *)
Lemma getSyncToken_inv (i : nat) (c r : string) (t t' : Trace)
  (x : Result json) :
  getSyncToken h i c (JStr r) t = (x, t') ->
  t' = (t ++ [entityRead c (JStr r) (param h (r ++ "Id") i)])%list
  /\ forall tok, x = Ok tok ->
       exists resp,
         server h t (entityRead c (JStr r) (param h (r ++ "Id") i)) = inr resp
         /\ tok = path [capitalCase r; "SyncToken"] resp.
Proof.
  unfold getSyncToken, bind, quickBooksApiRequest, entityRead.
  cbn [toStr method endpoint qs body].
  destruct (server h t _) as [failure|resp].
  - intros E; inversion E; subst. split; [reflexivity|]. discriminate.
  - destruct resp; cbn [member throw ret];
      try (intros E; inversion E; subst; split; [reflexivity | discriminate]).
    destruct (get (capitalCase r) o) eqn:G; cbn [member throw ret];
      intros E; inversion E; subst; (split; [reflexivity|]);
      try discriminate;
      intros tok T; inversion T; subst; eexists; (split; [reflexivity|]);
      cbn [path]; rewrite G; reflexivity.
Qed.

Lemma getRefAndSyncToken_inv (i : nat) (c r ref : string) (t t' : Trace)
  (x : Result (json * json)) :
  getRefAndSyncToken h i c (JStr r) ref t = (x, t') ->
  t' = (t ++ [entityRead c (JStr r) (param h (r ++ "Id") i)])%list
  /\ forall rf tok, x = Ok (rf, tok) ->
       (exists name value, rf = JObj [("name", name); ("value", value)])
       /\ exists resp,
            server h t (entityRead c (JStr r) (param h (r ++ "Id") i))
              = inr resp
            /\ tok = path [capitalCase r; "SyncToken"] resp.
Proof.
  unfold getRefAndSyncToken, bind, quickBooksApiRequest, entityRead.
  cbn [toStr method endpoint qs body].
  destruct (server h t _) as [failure|resp].
  - intros E; inversion E; subst. split; [reflexivity|]. discriminate.
  - destruct resp; cbn [member throw ret];
      try (intros E; inversion E; subst; split; [reflexivity | discriminate]).
    destruct (get (capitalCase r) o) eqn:G; cbn [member throw ret];
      try (intros E; inversion E; subst; split; [reflexivity | discriminate]).
    destruct (get ref o0) eqn:R; cbn [member throw ret];
      intros E; inversion E; subst; (split; [reflexivity|]);
      try discriminate;
      intros rf tok T; inversion T; subst;
      (split; [eexists; eexists; reflexivity|]);
      eexists; (split; [reflexivity|]); cbn [path]; rewrite G; reflexivity.
Qed.

End Mutations.

(** C5.  A payment void on id "9", the entity read answering with
    SyncToken "3": after the read, the mutation is a POST to
    /v3/company/{companyId}/payment with the query parameters
    Id "9", SyncToken "3", operation "void", and an empty body. *)
Theorem payment_void_request
  (h : Host) (i : nat) (rd : json) (t : Trace) (resp entity : obj) :
  param h "paymentId" i = JStr "9" ->
  server h t (entityRead (realmId h) (JStr "payment") (JStr "9"))
    = inr (JObj resp) ->
  get "Payment" resp = JObj entity ->
  get "SyncToken" entity = JStr "3" ->
  snd (dispatch h (JStr "payment") (JStr "void") i rd t) =
    (t ++ [entityRead (realmId h) (JStr "payment") (JStr "9");
           mkRequest "POST" ("/v3/company/" ++ realmId h ++ "/payment")
             [("Id", JStr "9"); ("SyncToken", JStr "3");
              ("operation", JStr "void")]
             []])%list.
Proof.
  intros P S G T.
  route. rewrite next_trace. unfold voidEntity.
  assert (S' : server h t (entityRead (realmId h) (JStr "payment")
                             (param h ("payment" ++ "Id") i))
               = inr (JObj resp)).
  { simpl append. now rewrite P. }
  rewrite (bind_ok_trace _ _ _ _ _
             (getSyncToken_ok h i (companyId h) "payment" t resp entity S' G)).
  rewrite request_unwrap_trace.
  simpl append. rewrite P, T. unfold resourceEndpoint, companyId.
  simpl toStr. rewrite <- app_assoc. reflexivity.
Qed.

Lemma payment_void_request_witness :
  param paymentVoid "paymentId" 0 = JStr "9"
  /\ snd (dispatch paymentVoid (JStr "payment") (JStr "void") 0 JUndefined [])
     = [mkRequest "GET" "/v3/company/C1/payment/9" [] [];
        mkRequest "POST" "/v3/company/C1/payment"
          [("Id", JStr "9"); ("SyncToken", JStr "3");
           ("operation", JStr "void")]
          []].
Proof.
  split; [reflexivity|].
  apply (payment_void_request paymentVoid 0 JUndefined []
           [("Payment",
             JObj [("SyncToken", JStr "3");
                   ("CustomerRef",
                    JObj [("name", JStr "Ann"); ("value", JStr "7")]);
                   ("VendorRef",
                    JObj [("name", JStr "Acme"); ("value", JStr "8")])])]
           [("SyncToken", JStr "3");
            ("CustomerRef", JObj [("name", JStr "Ann"); ("value", JStr "7")]);
            ("VendorRef", JObj [("name", JStr "Acme"); ("value", JStr "8")])]).
  - reflexivity.
  - reflexivity.
  - reflexivity.
  - reflexivity.
Defined.

Section SuccessfulRead.

Variable h : Host.
Variables (r : string) (i : nat) (t : Trace) (resp entity : obj).

Hypothesis read_ok :
  server h t (entityRead (realmId h) (JStr r) (param h (r ++ "Id") i))
    = inr (JObj resp).
Hypothesis envelope : get (capitalCase r) resp = JObj entity.

Lemma updatePlain_ok_trace (idName : string) :
  isEmpty (param h "updateFields" i) = false ->
  snd (updatePlain h (JStr r) idName i t) =
    (t ++ [entityRead (realmId h) (JStr r) (param h (r ++ "Id") i);
           mkRequest "POST" ("/v3/company/" ++ realmId h ++ "/" ++ r) []
             (populateFields h
                [("Id", param h idName i);
                 ("SyncToken", get "SyncToken" entity);
                 ("sparse", JBool true)]
                (param h "updateFields" i) (JStr r))])%list.
Proof.
  intros N. unfold updatePlain.
  rewrite (bind_ok_trace _ _ _ _ _
             (getSyncToken_ok h i (companyId h) r t resp entity
                read_ok envelope)).
  rewrite updateFrom_trace, N. rewrite <- app_assoc. reflexivity.
Qed.

Lemma updateWithRef_ok_trace (idName ref : string) (refo : obj) :
  get ref entity = JObj refo ->
  isEmpty (param h "updateFields" i) = false ->
  snd (updateWithRef h (JStr r) idName ref i t) =
    (t ++ [entityRead (realmId h) (JStr r) (param h (r ++ "Id") i);
           mkRequest "POST" ("/v3/company/" ++ realmId h ++ "/" ++ r) []
             (populateFields h
                [("Id", param h idName i);
                 ("SyncToken", get "SyncToken" entity);
                 ("sparse", JBool true);
                 (ref, JObj [("name", get "name" refo);
                             ("value", get "value" refo)])]
                (param h "updateFields" i) (JStr r))])%list.
Proof.
  intros R N. unfold updateWithRef.
  rewrite (bind_ok_trace _ _ _ _ _
             (getRefAndSyncToken_ok h i (companyId h) r ref t resp entity
                refo read_ok envelope R)).
  cbv beta iota. cbn [member]. rewrite !bind_ret_trace.
  rewrite updateFrom_trace, N. rewrite <- app_assoc. reflexivity.
Qed.

Lemma deleteEntity_ok_trace (idName : string) :
  snd (deleteEntity h (JStr r) idName i t) =
    (t ++ [entityRead (realmId h) (JStr r) (param h (r ++ "Id") i);
           mkRequest "POST" ("/v3/company/" ++ realmId h ++ "/" ++ r)
             [("operation", JStr "delete")]
             [("Id", param h idName i);
              ("SyncToken", get "SyncToken" entity)]])%list.
Proof.
  unfold deleteEntity.
  rewrite (bind_ok_trace _ _ _ _ _
             (getSyncToken_ok h i (companyId h) r t resp entity
                read_ok envelope)).
  rewrite request_unwrap_trace. rewrite <- app_assoc. reflexivity.
Qed.

Lemma voidEntity_ok_trace (idName : string) :
  snd (voidEntity h (JStr r) idName i t) =
    (t ++ [entityRead (realmId h) (JStr r) (param h (r ++ "Id") i);
           mkRequest "POST" ("/v3/company/" ++ realmId h ++ "/" ++ r)
             [("Id", param h idName i);
              ("SyncToken", get "SyncToken" entity);
              ("operation", JStr "void")]
             []])%list.
Proof.
  unfold voidEntity.
  rewrite (bind_ok_trace _ _ _ _ _
             (getSyncToken_ok h i (companyId h) r t resp entity
                read_ok envelope)).
  rewrite request_unwrap_trace. rewrite <- app_assoc. reflexivity.
Qed.

End SuccessfulRead.

(** C8, as amended.  For every update, delete and void, on any item and
    after any history of requests, when the item's read of the entity
    succeeds (and, for an update, [updateFields] is not empty): the
    item's processing first issues that read and, immediately after it,
    the mutation, and the SyncToken [execute] gives the mutation is the
    one in the response to that read; nothing carried over from earlier
    items enters it.  A delete and a void echo it as it is.  An update
    puts it in the body that [populateFields] then merges with
    [updateFields], and echoes it when the merge leaves it in place. *)
Theorem mutation_echoes_fresh_token
  (h : Host) (r o : string) (i : nat) (rd : json) (t : Trace)
  (resp entity : obj) :
  In (r, o) mutations ->
  server h t (entityRead (realmId h) (JStr r) (param h (r ++ "Id") i))
    = inr (JObj resp) ->
  get (capitalCase r) resp = JObj entity ->
  (o = "update" ->
   isEmpty (param h "updateFields" i) = false
   /\ hasReference r entity = true) ->
  exists req,
    snd (dispatch h (JStr r) (JStr o) i rd t) =
      (t ++ [entityRead (realmId h) (JStr r) (param h (r ++ "Id") i); req])%list
    /\ method req = "POST"
    /\ endpoint req = "/v3/company/" ++ realmId h ++ "/" ++ r
    /\ (o <> "update" -> echoedToken o req = get "SyncToken" entity)
    /\ (o = "update" ->
        exists base,
          body req = populateFields h base (param h "updateFields" i) (JStr r)
          /\ get "SyncToken" base = get "SyncToken" entity
          /\ (get "SyncToken" (body req) = get "SyncToken" base ->
              echoedToken o req = get "SyncToken" entity)).
Proof.
  intros I S G U.
  simpl in I.
  repeat (destruct I as [I | I]; [inversion I; subst r o; clear I | ]);
    try contradiction;
    try (destruct (U eq_refl) as [N R]; clear U;
         unfold hasReference in R; simpl in R;
         try (apply isObject_true in R; destruct R as [refo R]));
    route; rewrite next_trace.
  1, 4, 5, 6:
    rewrite (updateWithRef_ok_trace h _ i t resp entity S G _ _ refo R N);
    eexists; (split; [reflexivity|]);
    (split; [reflexivity|]); (split; [reflexivity|]);
    (split; [intros X; exfalso; apply X; reflexivity|]);
    intros _; eexists; (split; [reflexivity|]); (split; [reflexivity|]);
    intros E; unfold echoedToken; simpl; exact E.
  1, 2, 3:
    rewrite (updatePlain_ok_trace h _ i t resp entity S G _ N);
    eexists; (split; [reflexivity|]);
    (split; [reflexivity|]); (split; [reflexivity|]);
    (split; [intros X; exfalso; apply X; reflexivity|]);
    intros _; eexists; (split; [reflexivity|]); (split; [reflexivity|]);
    intros E; unfold echoedToken; simpl; exact E.
  1, 2:
    rewrite (deleteEntity_ok_trace h _ i t resp entity S G);
    eexists; (split; [reflexivity|]);
    (split; [reflexivity|]); (split; [reflexivity|]);
    (split; [intros _; reflexivity | intros X; discriminate X]).
  1, 2:
    rewrite (voidEntity_ok_trace h _ i t resp entity S G);
    eexists; (split; [reflexivity|]);
    (split; [reflexivity|]); (split; [reflexivity|]);
    (split; [intros _; reflexivity | intros X; discriminate X]).
Qed.

Lemma mutation_echoes_fresh_token_witness :
  In ("payment", "void") mutations
  /\ exists req,
       snd (dispatch twoVoids (JStr "payment") (JStr "void") 1 JUndefined
              [mkRequest "GET" "/v3/company/C1/payment/9" [] [];
               mkRequest "POST" "/v3/company/C1/payment"
                 [("Id", JStr "9"); ("SyncToken", JStr "0");
                  ("operation", JStr "void")] []])
       = ([mkRequest "GET" "/v3/company/C1/payment/9" [] [];
           mkRequest "POST" "/v3/company/C1/payment"
             [("Id", JStr "9"); ("SyncToken", JStr "0");
              ("operation", JStr "void")] []]
          ++ [entityRead (realmId twoVoids) (JStr "payment")
                (param twoVoids ("payment" ++ "Id") 1); req])%list
       /\ method req = "POST"
       /\ endpoint req = "/v3/company/" ++ realmId twoVoids ++ "/" ++ "payment"
       /\ ("void" <> "update" ->
           echoedToken "void" req =
           get "SyncToken"
             [("SyncToken", JStr "2");
              ("CustomerRef", JObj [("name", JStr "Ann"); ("value", JStr "7")]);
              ("VendorRef", JObj [("name", JStr "Acme"); ("value", JStr "8")])])
       /\ ("void" = "update" ->
           exists base,
             body req =
             populateFields twoVoids base (param twoVoids "updateFields" 1)
               (JStr "payment")
             /\ get "SyncToken" base =
                get "SyncToken"
                  [("SyncToken", JStr "2");
                   ("CustomerRef",
                    JObj [("name", JStr "Ann"); ("value", JStr "7")]);
                   ("VendorRef",
                    JObj [("name", JStr "Acme"); ("value", JStr "8")])]
             /\ (get "SyncToken" (body req) = get "SyncToken" base ->
                 echoedToken "void" req =
                 get "SyncToken"
                   [("SyncToken", JStr "2");
                    ("CustomerRef",
                     JObj [("name", JStr "Ann"); ("value", JStr "7")]);
                    ("VendorRef",
                     JObj [("name", JStr "Acme"); ("value", JStr "8")])])).
Proof.
  split; [simpl; tauto|].
  apply (mutation_echoes_fresh_token twoVoids "payment" "void" 1 JUndefined
           [mkRequest "GET" "/v3/company/C1/payment/9" [] [];
            mkRequest "POST" "/v3/company/C1/payment"
              [("Id", JStr "9"); ("SyncToken", JStr "0");
               ("operation", JStr "void")] []]
           [("Payment",
             JObj [("SyncToken", JStr "2");
                   ("CustomerRef",
                    JObj [("name", JStr "Ann"); ("value", JStr "7")]);
                   ("VendorRef",
                    JObj [("name", JStr "Acme"); ("value", JStr "8")])])]).
  - simpl; tauto.
  - reflexivity.
  - reflexivity.
  - discriminate.
Defined.

(** Two voids in one run: each is preceded by its own read, and the second
    echoes the revision its own read returned, not the first one's. *)
Example two_voids_two_reads :
  snd (execute twoVoids []) =
    [mkRequest "GET" "/v3/company/C1/payment/9" [] [];
     mkRequest "POST" "/v3/company/C1/payment"
       [("Id", JStr "9"); ("SyncToken", JStr "0");
        ("operation", JStr "void")] [];
     mkRequest "GET" "/v3/company/C1/payment/10" [] [];
     mkRequest "POST" "/v3/company/C1/payment"
       [("Id", JStr "10"); ("SyncToken", JStr "2");
        ("operation", JStr "void")] []].
Proof. reflexivity. Qed.

(** C9, as amended.  For every update of bill, estimate, invoice and
    payment whose read succeeds and whose [updateFields] is not empty:
    the resolver's one read gives both the SyncToken and the reference
    (VendorRef for bill, CustomerRef for the others); the update request
    follows that single read, and its body is what [populateFields] makes
    of [updateFields] and of a body in which [execute] had put the
    SyncToken and the reference as a full object, display name and id
    both.  The request carries them when [populateFields] leaves them in
    place. *)
Theorem update_carries_full_reference
  (h : Host) (r ref : string) (i : nat) (rd : json) (t : Trace)
  (resp entity refo : obj) :
  referenceOf r = Some ref ->
  server h t (entityRead (realmId h) (JStr r) (param h (r ++ "Id") i))
    = inr (JObj resp) ->
  get (capitalCase r) resp = JObj entity ->
  get ref entity = JObj refo ->
  isEmpty (param h "updateFields" i) = false ->
  exists req base,
    snd (dispatch h (JStr r) (JStr "update") i rd t) =
      (t ++ [entityRead (realmId h) (JStr r) (param h (r ++ "Id") i); req])%list
    /\ method req = "POST"
    /\ endpoint req = "/v3/company/" ++ realmId h ++ "/" ++ r
    /\ body req = populateFields h base (param h "updateFields" i) (JStr r)
    /\ get "SyncToken" base = get "SyncToken" entity
    /\ get ref base =
         JObj [("name", get "name" refo); ("value", get "value" refo)]
    /\ ((forall k, k = "SyncToken" \/ k = ref ->
           get k (body req) = get k base) ->
        get "SyncToken" (body req) = get "SyncToken" entity
        /\ get ref (body req) =
             JObj [("name", get "name" refo); ("value", get "value" refo)]).
Proof.
  intros F S G R N.
  unfold referenceOf in F.
  repeat match type of F with
         | context [String.eqb r ?lit] =>
             destruct (String.eqb_spec r lit) as [-> | _]
         end;
    try discriminate; injection F as <-;
    route; rewrite next_trace;
    rewrite (updateWithRef_ok_trace h _ i t resp entity S G _ _ refo R N);
    eexists; eexists; (split; [reflexivity|]);
    (split; [reflexivity|]); (split; [reflexivity|]);
    (split; [reflexivity|]); (split; [reflexivity|]);
    (split; [reflexivity|]);
    intros K; rewrite !K by tauto; split; reflexivity.
Qed.

Lemma update_carries_full_reference_witness :
  referenceOf "bill" = Some "VendorRef"
  /\ exists req base,
       snd (dispatch billUpdate (JStr "bill") (JStr "update") 0 JUndefined [])
       = ([] ++ [entityRead (realmId billUpdate) (JStr "bill")
                   (param billUpdate ("bill" ++ "Id") 0); req])%list
       /\ method req = "POST"
       /\ endpoint req = "/v3/company/" ++ realmId billUpdate ++ "/" ++ "bill"
       /\ body req =
          populateFields billUpdate base (param billUpdate "updateFields" 0)
            (JStr "bill")
       /\ get "SyncToken" base =
          get "SyncToken"
            [("SyncToken", JStr "0");
             ("CustomerRef", JObj [("name", JStr "Ann"); ("value", JStr "7")]);
             ("VendorRef", JObj [("name", JStr "Acme"); ("value", JStr "8")])]
       /\ get "VendorRef" base =
          JObj [("name", get "name" [("name", JStr "Acme"); ("value", JStr "8")]);
                ("value", get "value" [("name", JStr "Acme"); ("value", JStr "8")])]
       /\ ((forall k, k = "SyncToken" \/ k = "VendorRef" ->
              get k (body req) = get k base) ->
           get "SyncToken" (body req) =
           get "SyncToken"
             [("SyncToken", JStr "0");
              ("CustomerRef", JObj [("name", JStr "Ann"); ("value", JStr "7")]);
              ("VendorRef", JObj [("name", JStr "Acme"); ("value", JStr "8")])]
           /\ get "VendorRef" (body req) =
              JObj [("name",
                     get "name" [("name", JStr "Acme"); ("value", JStr "8")]);
                    ("value",
                     get "value" [("name", JStr "Acme"); ("value", JStr "8")])]).
Proof.
  split; [reflexivity|].
  apply (update_carries_full_reference billUpdate "bill" "VendorRef" 0
           JUndefined []
           [("Bill",
             JObj [("SyncToken", JStr "0");
                   ("CustomerRef",
                    JObj [("name", JStr "Ann"); ("value", JStr "7")]);
                   ("VendorRef",
                    JObj [("name", JStr "Acme"); ("value", JStr "8")])])]).
  - reflexivity.
  - reflexivity.
  - reflexivity.
  - reflexivity.
  - reflexivity.
Defined.

(** The bill update of the due date sends the reference as read. *)
Example bill_update_request :
  snd (execute billUpdate []) =
    [mkRequest "GET" "/v3/company/C1/bill/12" [] [];
     mkRequest "POST" "/v3/company/C1/bill" []
       [("Id", JStr "12"); ("SyncToken", JStr "0"); ("sparse", JBool true);
        ("VendorRef", JObj [("name", JStr "Acme"); ("value", JStr "8")]);
        ("DueDate", JStr "2021-01-31")]].
Proof. reflexivity. Qed.

(* ===================================================================== *)
(** ** Every update request is sparse *)
(* ===================================================================== *)

Section UpdateRequests.

Variable h : Host.
Variables (r : string) (i : nat) (t : Trace).

Lemma updatePlain_logged (idName : string) :
  updateLogged h r idName i t (snd (updatePlain h (JStr r) idName i t)).
Proof.
  unfold updatePlain.
  destruct (getSyncToken h i (companyId h) (JStr r) t) as [x t'] eqn:E.
  destruct x as [tok|e];
    [ rewrite (bind_ok_trace _ _ _ _ _ E)
    | rewrite (bind_err_trace _ _ _ _ _ E) ];
    apply getSyncToken_inv in E; destruct E as [-> Tok]; [|now left].
  destruct (Tok tok eq_refl) as [resp [S ->]].
  rewrite updateFrom_trace.
  destruct (isEmpty (param h "updateFields" i)); [now left|].
  right. exists resp, []. split; [exact S|].
  rewrite <- app_assoc. reflexivity.
Qed.

Lemma updateWithRef_logged (idName ref : string) :
  updateLogged h r idName i t (snd (updateWithRef h (JStr r) idName ref i t)).
Proof.
  unfold updateWithRef.
  destruct (getRefAndSyncToken h i (companyId h) (JStr r) ref t)
    as [x t'] eqn:E.
  destruct x as [[rf tok]|e];
    [ rewrite (bind_ok_trace _ _ _ _ _ E)
    | rewrite (bind_err_trace _ _ _ _ _ E) ];
    apply getRefAndSyncToken_inv in E; destruct E as [-> Tok]; [|now left].
  destruct (Tok rf tok eq_refl) as [[name [value ->]] [resp [S ->]]].
  cbn [member]. rewrite !bind_ret_trace.
  rewrite updateFrom_trace.
  destruct (isEmpty (param h "updateFields" i)); [now left|].
  right. exists resp. eexists [(ref, _)]. split; [exact S|].
  rewrite <- app_assoc. reflexivity.
Qed.

End UpdateRequests.

(** Each update branch of [dispatch] logs what [updateLogged] says, with
    the resource's own id parameter. *)
Lemma update_logged (h : Host) (r : string) (i : nat) (t : Trace)
  (rd : json) :
  In r updatable ->
  updateLogged h r (r ++ "Id") i t
    (snd (dispatch h (JStr r) (JStr "update") i rd t)).
Proof.
  intros I. cases_in I; route; rewrite next_trace;
    first [apply updatePlain_logged | apply updateWithRef_logged].
Qed.


(** With a successful read and a non-empty [updateFields], the update
    logs its read and then its POST. *)
Lemma update_ok_trace (h : Host) (r : string) (i : nat) (t : Trace)
  (rd : json) (resp entity : obj) :
  In r updatable ->
  server h t (entityRead (realmId h) (JStr r) (param h (r ++ "Id") i))
    = inr (JObj resp) ->
  get (capitalCase r) resp = JObj entity ->
  hasReference r entity = true ->
  isEmpty (param h "updateFields" i) = false ->
  exists req,
    snd (dispatch h (JStr r) (JStr "update") i rd t) =
      (t ++ [entityRead (realmId h) (JStr r) (param h (r ++ "Id") i);
             req])%list.
Proof.
  intros I S G R N.
  cases_in I; unfold hasReference in R; simpl in R;
    try (apply isObject_true in R; destruct R as [refo R]);
    route; rewrite next_trace;
    first
      [ rewrite (updatePlain_ok_trace h _ i t resp entity S G _ N)
      | rewrite (updateWithRef_ok_trace h _ i t resp entity S G _ _ refo R N) ];
    eexists; reflexivity.
Qed.


(** C7, as amended.  For every update, on every resource with one:
    whatever the item's processing has sent when it ends, every POST
    among it has as body what [populateFields] made of the item's
    [updateFields] and of a body in which [execute] had put sparse: true,
    the Id of the entity and the SyncToken read for it.  [execute] does
    not set these three again after the merge: the request carries them
    when [populateFields] leaves them in place.  And when the read
    succeeds and [updateFields] is not empty, that POST is sent. *)
Theorem update_request_is_sparse
  (h : Host) (r : string) (i : nat) (rd : json) (t : Trace) :
  In r updatable ->
  exists sent,
    snd (dispatch h (JStr r) (JStr "update") i rd t) = (t ++ sent)%list
    /\ (forall req, In req sent -> method req = "POST" ->
          exists base resp,
            server h t (entityRead (realmId h) (JStr r)
                          (param h (r ++ "Id") i)) = inr resp
            /\ body req =
               populateFields h base (param h "updateFields" i) (JStr r)
            /\ get "sparse" base = JBool true
            /\ get "Id" base = param h (r ++ "Id") i
            /\ get "SyncToken" base = path [capitalCase r; "SyncToken"] resp
            /\ ((forall k, In k identityFields ->
                    get k (body req) = get k base) ->
                get "sparse" (body req) = JBool true
                /\ get "Id" (body req) = param h (r ++ "Id") i
                /\ get "SyncToken" (body req)
                   = path [capitalCase r; "SyncToken"] resp))
    /\ (forall resp entity,
          server h t (entityRead (realmId h) (JStr r)
                        (param h (r ++ "Id") i)) = inr (JObj resp) ->
          get (capitalCase r) resp = JObj entity ->
          hasReference r entity = true ->
          isEmpty (param h "updateFields" i) = false ->
          exists req, In req sent /\ method req = "POST").
Proof.
  intros I.
  destruct (update_logged h r i t rd I) as [L | [resp [extra [S L]]]];
    rewrite L.
  - exists [entityRead (realmId h) (JStr r) (param h (r ++ "Id") i)].
    split; [reflexivity | split].
    + intros req [<- | []] P. discriminate P.
    + intros resp entity S G R N. exfalso.
      destruct (update_ok_trace h r i t rd resp entity I S G R N)
        as [req X].
      rewrite L in X.
      apply app_inv_head in X. discriminate X.
  - eexists [_; _]. split; [reflexivity | split].
    + intros req [<- | [<- | []]] P; [discriminate P|].
      eexists. exists resp. cbn [body].
      split; [exact S|].
      split; [reflexivity|].
      split; [reflexivity|].
      split; [reflexivity|].
      split; [reflexivity|].
      intros K. rewrite !K by (simpl; tauto).
      split; [reflexivity | split; reflexivity].
    + intros _ _ _ _ _ _. eexists. split; [right; left; reflexivity|].
      reflexivity.
Qed.

Lemma update_request_is_sparse_witness :
  In "customer" updatable
  /\ exists sent,
       snd (dispatch customerUpdate (JStr "customer") (JStr "update") 0
              JUndefined []) = ([] ++ sent)%list
       /\ (forall req, In req sent -> method req = "POST" ->
             exists base resp,
               server customerUpdate []
                 (entityRead (realmId customerUpdate) (JStr "customer")
                    (param customerUpdate ("customer" ++ "Id") 0))
               = inr resp
               /\ body req =
                  populateFields customerUpdate base
                    (param customerUpdate "updateFields" 0) (JStr "customer")
               /\ get "sparse" base = JBool true
               /\ get "Id" base = param customerUpdate ("customer" ++ "Id") 0
               /\ get "SyncToken" base
                  = path [capitalCase "customer"; "SyncToken"] resp
               /\ ((forall k, In k identityFields ->
                       get k (body req) = get k base) ->
                   get "sparse" (body req) = JBool true
                   /\ get "Id" (body req)
                      = param customerUpdate ("customer" ++ "Id") 0
                   /\ get "SyncToken" (body req)
                      = path [capitalCase "customer"; "SyncToken"] resp))
       /\ (forall resp entity,
             server customerUpdate []
               (entityRead (realmId customerUpdate) (JStr "customer")
                  (param customerUpdate ("customer" ++ "Id") 0))
             = inr (JObj resp) ->
             get (capitalCase "customer") resp = JObj entity ->
             hasReference "customer" entity = true ->
             isEmpty (param customerUpdate "updateFields" 0) = false ->
             exists req, In req sent /\ method req = "POST").
Proof.
  split; [simpl; tauto|].
  apply (update_request_is_sparse customerUpdate "customer" 0 JUndefined []).
  simpl; tauto.
Defined.

(** The customer update sends its POST, and the body is sparse. *)
Example customer_update_request :
  snd (execute customerUpdate []) =
    [mkRequest "GET" "/v3/company/C1/customer/4" [] [];
     mkRequest "POST" "/v3/company/C1/customer" []
       [("Id", JStr "4"); ("SyncToken", JStr "0"); ("sparse", JBool true);
        ("DisplayName", JStr "Bob")]].
Proof. reflexivity. Qed.

(* ===================================================================== *)
(** ** Download *)
(* ===================================================================== *)

(** A loop that collected [acc] over its first [a] items is, with [b]
    more items, the loop over those from the state it had reached. *)
Lemma loop_split (h : Host) (r o : json) (b a : nat) :
  forall (i : nat) (rd : json) (returnData acc : list json) (t t' : Trace),
    loop h r o a i rd returnData t = (Ok (Collected acc), t') ->
    exists rd',
      loop h r o (a + b) i rd returnData t = loop h r o b (i + a) rd' acc t'.
Proof.
  induction a as [|a IH]; intros i rd returnData acc t t'; simpl.
  - intros E. inversion E; subst. exists rd. now rewrite Nat.add_0_r.
  - unfold bind.
    destruct (dispatch h r o i rd t) as [[[rd1|output]|e] t1];
      try discriminate.
    intros E. destruct (IH _ _ _ _ _ _ E) as [rd' L].
    exists rd'. rewrite L. now rewrite Nat.add_succ_r.
Qed.

Lemma dispatch_download (h : Host) (r : string) (i : nat) (rd : json)
  (t : Trace) :
  In r downloadable ->
  truthy (param h "download" i) = true ->
  dispatch h (JStr r) (JStr "get") i rd t =
    (output <- handleBinaryData h (items h) i (realmId h) (JStr r)
                 (param h (r ++ "Id") i) ;;
     ret (Return output)) t.
Proof.
  intros I D. cases_in I; route; unfold getOrDownload; rewrite D;
    reflexivity.
Qed.

(** C10.  With the tags get on estimate, invoice or payment, when the
    download flag of item [i] is set (the items before it having been
    processed and their records collected), [execute] returns what
    [handleBinaryData] returns for item [i], from the log as it stands
    there: the records collected so far are not part of the result, and
    no item after [i] is processed. *)
Theorem download_returns_immediately
  (h : Host) (r : string) (i n : nat) (t0 t : Trace) (acc : list json) :
  In r downloadable ->
  param h "resource" 0 = JStr r ->
  param h "operation" 0 = JStr "get" ->
  length (items h) = i + S n ->
  loop h (JStr r) (JStr "get") i 0 JUndefined [] t0 = (Ok (Collected acc), t) ->
  truthy (param h "download" i) = true ->
  execute h t0 =
    handleBinaryData h (items h) i (realmId h) (JStr r)
      (param h (r ++ "Id") i) t.
Proof.
  intros I R O L B D.
  unfold execute, collect. rewrite R, O, L.
  destruct (loop_split h (JStr r) (JStr "get") (S n) i 0 JUndefined [] acc
              t0 t B) as [rd' Sp].
  unfold bind at 1. rewrite Sp. simpl loop. unfold bind at 1.
  rewrite (dispatch_download h r i rd' t I D). unfold bind.
  destruct (handleBinaryData h (items h) i (realmId h) (JStr r)
              (param h (r ++ "Id") i) t) as [[output|e] t']; reflexivity.
Qed.

Lemma download_returns_immediately_witness :
  truthy (param downloadSecond "download" 1) = true
  /\ loop downloadSecond (JStr "invoice") (JStr "get") 1 0 JUndefined [] [] =
       (Ok (Collected
              [JObj [("SyncToken", JStr "0");
                     ("CustomerRef",
                      JObj [("name", JStr "Ann"); ("value", JStr "7")]);
                     ("VendorRef",
                      JObj [("name", JStr "Acme"); ("value", JStr "8")])]]),
        [mkRequest "GET" "/v3/company/C1/invoice/1" [] []])
  /\ execute downloadSecond [] =
       handleBinaryData downloadSecond (items downloadSecond) 1
         (realmId downloadSecond) (JStr "invoice")
         (param downloadSecond ("invoice" ++ "Id") 1)
         [mkRequest "GET" "/v3/company/C1/invoice/1" [] []].
Proof.
  split; [reflexivity | split; [reflexivity | ]].
  apply (download_returns_immediately downloadSecond "invoice" 1 1 []
           [mkRequest "GET" "/v3/company/C1/invoice/1" [] []]
           [JObj [("SyncToken", JStr "0");
                  ("CustomerRef",
                   JObj [("name", JStr "Ann"); ("value", JStr "7")]);
                  ("VendorRef",
                   JObj [("name", JStr "Acme"); ("value", JStr "8")])]]).
  - simpl; tauto.
  - reflexivity.
  - reflexivity.
  - reflexivity.
  - reflexivity.
  - reflexivity.
Defined.

(** The run of three invoice gets whose second asks for the download: one
    read for the first item, then the binary result alone. *)
Example download_second_result :
  execute downloadSecond [] =
    (Ok [[JObj [("binary", JStr "C1/invoice/2/pdf")]]],
     [mkRequest "GET" "/v3/company/C1/invoice/1" [] []]).
Proof. reflexivity. Qed.

(* ===================================================================== *)
(** ** Update fields that name a field of the body *)
(* ===================================================================== *)

(** A customer update whose [updateFields] names sparse, merged as it
    is: the POST goes out with sparse: false. *)
Lemma update_fields_can_unset_sparse :
  snd (execute customerUpdateUnsparse []) =
    [mkRequest "GET" "/v3/company/C1/customer/4" [] [];
     mkRequest "POST" "/v3/company/C1/customer" []
       [("Id", JStr "4"); ("SyncToken", JStr "0"); ("sparse", JBool false);
        ("DisplayName", JStr "Bob")]]
  /\ exists req,
       In req (snd (execute customerUpdateUnsparse []))
       /\ method req = "POST"
       /\ get "sparse" (body req) <> JBool true.
Proof.
  split; [reflexivity|].
  eexists. split; [right; left; reflexivity|].
  split; [reflexivity | discriminate].
Qed.

(** A customer update whose [updateFields] names SyncToken, merged as it
    is: the POST echoes that value, not the token its read returned. *)
Lemma update_fields_can_replace_token :
  snd (execute customerUpdateStale []) =
    [mkRequest "GET" "/v3/company/C1/customer/4" [] [];
     mkRequest "POST" "/v3/company/C1/customer" []
       [("Id", JStr "4"); ("SyncToken", JStr "stale");
        ("sparse", JBool true)]]
  /\ server customerUpdateStale []
       (entityRead "C1" (JStr "customer") (JStr "4"))
     = inr (JObj [("Customer",
                   JObj [("SyncToken", JStr "0");
                         ("CustomerRef",
                          JObj [("name", JStr "Ann"); ("value", JStr "7")]);
                         ("VendorRef",
                          JObj [("name", JStr "Acme");
                                ("value", JStr "8")])])])
  /\ exists req,
       In req (snd (execute customerUpdateStale []))
       /\ method req = "POST"
       /\ echoedToken "update" req <> JStr "0".
Proof.
  split; [reflexivity | split; [reflexivity | ]].
  eexists. split; [right; left; reflexivity|].
  split; [reflexivity | discriminate].
Qed.

(** A bill update whose [updateFields] names VendorRef, merged as it is:
    the POST carries that value in place of the reference read, without
    its display name. *)
Lemma update_fields_can_replace_reference :
  snd (execute billUpdateVendor []) =
    [mkRequest "GET" "/v3/company/C1/bill/12" [] [];
     mkRequest "POST" "/v3/company/C1/bill" []
       [("Id", JStr "12"); ("SyncToken", JStr "0"); ("sparse", JBool true);
        ("VendorRef", JStr "55")]]
  /\ exists req,
       In req (snd (execute billUpdateVendor []))
       /\ method req = "POST"
       /\ get "VendorRef" (body req)
          <> JObj [("name", JStr "Acme"); ("value", JStr "8")].
Proof.
  split; [reflexivity|].
  eexists. split; [right; left; reflexivity|].
  split; [reflexivity | discriminate].
Qed.

(* ===================================================================== *)
(** ** Get, send and the creates without lines *)
(* ===================================================================== *)

Lemma append_assoc (a b c : string) : (a ++ b) ++ c = a ++ b ++ c.
Proof. induction a as [|x a IH]; simpl; [reflexivity | now rewrite IH]. Qed.

Lemma prefix_append (a b : string) : prefix a (a ++ b) = true.
Proof.
  induction a as [|x a IH]; simpl.
  - now destruct b.
  - destruct (ascii_dec x x); [exact IH | contradiction].
Qed.

(** One request whose response is unwrapped: the request is logged and
    the answer decides the outcome. *)
Lemma request_unwrap_run (h : Host) (r m e : string) (q b : obj)
  (t : Trace) :
  next (responseData <- quickBooksApiRequest h m e q b ;;
        unwrap (JStr r) responseData) t =
    (unwrapped r (server h t (mkRequest m e q b)),
     (t ++ [mkRequest m e q b])%list).
Proof.
  unfold next, bind, quickBooksApiRequest, unwrap, unwrapped.
  cbn [toStr].
  destruct (server h t _) as [failure|resp]; [reflexivity|].
  destruct resp; reflexivity.
Qed.

Lemma getEntity_run (h : Host) (r : string) (i : nat) (t : Trace) :
  next (getEntity h (JStr r) (r ++ "Id") i) t =
    (unwrapped r (server h t (getRequest h r i)),
     (t ++ [getRequest h r i])%list).
Proof.
  unfold getEntity, getRequest, resourceEndpoint, companyId. cbn [toStr].
  rewrite !append_assoc. apply request_unwrap_run.
Qed.

Lemma get_run (h : Host) (r : string) (i : nat) (rd : json) (t : Trace) :
  In r resources ->
  (In r downloadable -> truthy (param h "download" i) = false) ->
  dispatch h (JStr r) (JStr "get") i rd t =
    (unwrapped r (server h t (getRequest h r i)),
     (t ++ [getRequest h r i])%list).
Proof.
  intros I D.
  cases_in I; route; unfold getOrDownload;
    try (rewrite D by (simpl; tauto));
    match goal with
    | |- context [getEntity h (JStr ?s)] => apply (getEntity_run h s i t)
    end.
Qed.

(** X1.  A get, on any of the eight resources (the download flag not set
    where there is one), of an entity whose id is a string, issues
    exactly one request, whatever the API answers: the GET of
    /v3/company/{companyId}/{resource}/{id}, with no query parameters and
    no body, and no read before it. *)
Theorem get_sends_one_request
  (h : Host) (r id : string) (i : nat) (rd : json) (t : Trace) :
  In r resources ->
  (In r downloadable -> truthy (param h "download" i) = false) ->
  param h (r ++ "Id") i = JStr id ->
  snd (dispatch h (JStr r) (JStr "get") i rd t) =
    (t ++ [mkRequest "GET"
             ("/v3/company/" ++ realmId h ++ "/" ++ r ++ "/" ++ id)
             [] []])%list.
Proof.
  intros I D P. rewrite (get_run h r i rd t I D).
  unfold getRequest. now rewrite P.
Qed.

Lemma get_sends_one_request_witness :
  In "invoice" resources
  /\ truthy (param downloadSecond "download" 0) = false
  /\ param downloadSecond ("invoice" ++ "Id") 0 = JStr "1"
  /\ snd (dispatch downloadSecond (JStr "invoice") (JStr "get") 0
            JUndefined []) =
       [mkRequest "GET" "/v3/company/C1/invoice/1" [] []].
Proof.
  split; [simpl; tauto | split; [reflexivity | split; [reflexivity | ]]].
  apply (get_sends_one_request downloadSecond "invoice" "1" 0 JUndefined []).
  - simpl; tauto.
  - intros _. reflexivity.
  - reflexivity.
Defined.



(** X3.  A send, of an invoice or a payment whose id is a string,
    issues exactly one request, the POST of
    /v3/company/{companyId}/{resource}/{id}/send with the address as the
    one query parameter sendTo and an empty body; no SyncToken is read
    for it, and the answer is unwrapped as for a get. *)
Theorem send_is_one_post
  (h : Host) (r id : string) (i : nat) (rd : json) (t : Trace) :
  In r sendables ->
  param h (r ++ "Id") i = JStr id ->
  dispatch h (JStr r) (JStr "send") i rd t =
    (unwrapped r
       (server h t
          (mkRequest "POST"
             ("/v3/company/" ++ realmId h ++ "/" ++ r ++ "/" ++ id ++ "/send")
             [("sendTo", param h "email" i)] [])),
     (t ++ [mkRequest "POST"
              ("/v3/company/" ++ realmId h ++ "/" ++ r ++ "/" ++ id
               ++ "/send")
              [("sendTo", param h "email" i)] []])%list).
Proof.
  intros I P.
  cases_in I; cbn [append] in P; route;
    unfold sendEntity, resourceEndpoint, companyId; rewrite P; cbn [toStr];
    rewrite !append_assoc; apply request_unwrap_run.
Qed.

Lemma send_is_one_post_witness :
  In "invoice" sendables
  /\ param invoiceSend ("invoice" ++ "Id") 0 = JStr "21"
  /\ snd (dispatch invoiceSend (JStr "invoice") (JStr "send") 0 JUndefined [])
     = [mkRequest "POST" "/v3/company/C1/invoice/21/send"
          [("sendTo", JStr "ann@example.com")] []].
Proof.
  split; [simpl; tauto | split; [reflexivity | ]].
  rewrite (send_is_one_post invoiceSend "invoice" "21" 0 JUndefined []).
  - reflexivity.
  - simpl; tauto.
  - reflexivity.
Defined.

(** X4.  A create of a customer, employee, payment or vendor validates
    nothing and reads nothing: it always issues exactly one request, the
    POST of /v3/company/{companyId}/{resource} whose body is what
    [populateFields] makes of the resource's required fields and the
    item's [additionalFields]. *)
Theorem plain_create_is_one_post
  (h : Host) (r : string) (i : nat) (rd : json) (t : Trace) :
  In r plainCreates ->
  dispatch h (JStr r) (JStr "create") i rd t =
    (unwrapped r
       (server h t
          (mkRequest "POST" ("/v3/company/" ++ realmId h ++ "/" ++ r) []
             (populateFields h (createIdentity h r i)
                (param h "additionalFields" i) (JStr r)))),
     (t ++ [mkRequest "POST" ("/v3/company/" ++ realmId h ++ "/" ++ r) []
              (populateFields h (createIdentity h r i)
                 (param h "additionalFields" i) (JStr r))])%list).
Proof.
  intros I.
  cases_in I; route;
    unfold createFrom, resourceEndpoint, companyId, createIdentity;
    cbn [toStr String.eqb Ascii.eqb Bool.eqb];
    apply request_unwrap_run.
Qed.

Lemma plain_create_is_one_post_witness :
  In "payment" plainCreates
  /\ snd (dispatch paymentCreate (JStr "payment") (JStr "create") 0
            JUndefined []) =
       [mkRequest "POST" "/v3/company/C1/payment" []
          [("CustomerRef", JObj [("value", JStr "7")]);
           ("TotalAmt", JNum 250); ("PrivateNote", JStr "cash")]].
Proof.
  split; [simpl; tauto|].
  rewrite (plain_create_is_one_post paymentCreate "payment" 0 JUndefined []).
  - reflexivity.
  - simpl; tauto.
Defined.

(* ===================================================================== *)
(** ** The reference a line requires *)
(* ===================================================================== *)

Lemma billLineRefs_missing (lines : list obj) (t : Trace) :
  existsb (refMissing "bill") lines = true ->
  exists msg, billLineRefs lines t = (Err (ValidationError msg), t).
Proof.
  induction lines as [|l lines IH]; simpl; [discriminate|].
  destruct (strictEqStr (get "DetailType" l) "AccountBasedExpenseLineDetail"
            && isUndefined (get "accountId" l)) eqn:E1.
  - intros _. eexists. reflexivity.
  - destruct (strictEqStr (get "DetailType" l) "ItemBasedExpenseLineDetail"
              && isUndefined (get "itemId" l)) eqn:E2.
    + intros _. eexists. reflexivity.
    + unfold refMissing at 1. cbn [String.eqb Ascii.eqb Bool.eqb].
      rewrite E1, E2. simpl. exact IH.
Qed.

Lemma salesLineRefs_missing (r : string) (lines : list obj) (t : Trace) :
  String.eqb r "bill" = false ->
  existsb (refMissing r) lines = true ->
  exists msg, salesLineRefs lines t = (Err (ValidationError msg), t).
Proof.
  intros N. induction lines as [|l lines IH]; simpl; [discriminate|].
  destruct (strictEqStr (get "DetailType" l) "SalesItemLineDetail"
            && isUndefined (get "itemId" l)) eqn:E1.
  - intros _. eexists. reflexivity.
  - unfold refMissing at 1. rewrite N, E1. simpl. exact IH.
Qed.

(** X5.  On bill, estimate and invoice create, a line that lacks the id
    its detail type requires there (the account id or the item id of a
    bill's expense lines, the item id of an estimate's or invoice's
    sales lines) makes the create fail with a validation error while the
    request log is still what it was. *)
Theorem line_reference_required
  (h : Host) (r : string) (i : nat) (rd : json) (t : Trace) :
  In r lineResources ->
  existsb (refMissing r) (lineParam h i) = true ->
  exists msg,
    dispatch h (JStr r) (JStr "create") i rd t =
      (Err (ValidationError msg), t).
Proof.
  intros I X.
  assert (P : forall refName lineRefs,
             (exists msg,
                 lineRefs (lineParam h i) t = (Err (ValidationError msg), t)) ->
             exists msg,
               next (createWithLines h (JStr r) refName lineRefs i) t =
                 (Err (ValidationError msg), t)).
  { intros refName lineRefs [msg F].
    pose proof (createWithLines_run h (JStr r) refName lineRefs i t) as Run.
    destruct (lineParam h i) as [|l ls] eqn:L; [discriminate X|].
    destruct (existsb lineIncomplete (l :: ls)).
    - eexists. apply next_err. exact Run.
    - rewrite F in Run. eexists. apply next_err. exact Run. }
  cases_in I; route; apply P.
  - now apply billLineRefs_missing.
  - now apply (salesLineRefs_missing "estimate").
  - now apply (salesLineRefs_missing "invoice").
Qed.

Lemma line_reference_required_witness :
  In "estimate" lineResources
  /\ existsb (refMissing "estimate") (lineParam estimateNoItem 0) = true
  /\ exists msg,
       dispatch estimateNoItem (JStr "estimate") (JStr "create") 0
         JUndefined [] = (Err (ValidationError msg), []).
Proof.
  split; [simpl; tauto | split; [reflexivity | ]].
  apply (line_reference_required estimateNoItem "estimate" 0 JUndefined []).
  - simpl; tauto.
  - reflexivity.
Defined.

(* ===================================================================== *)
(** ** The output sequence *)
(* ===================================================================== *)

Lemma getAll_run (h : Host) (r : string) (i : nat) (rd : json) (t : Trace) :
  In r resources ->
  dispatch h (JStr r) (JStr "getAll") i rd t =
    next (handleListing h i ("/v3/company/" ++ realmId h ++ "/query")
            (JStr r)) t.
Proof. intros I. cases_in I; route; reflexivity. Qed.

(** X6.  A getAll, on any of the eight resources, hands the item to the
    listing helper with the company's query endpoint, and the array the
    helper returns is spread onto the output sequence: its records follow
    the ones collected so far, in the helper's order, and the loop goes
    on with the next item. *)
Theorem listing_is_spread
  (h : Host) (r : string) (n i : nat) (rd : json)
  (returnData l : list json) (t t' : Trace) :
  In r resources ->
  handleListing h i ("/v3/company/" ++ realmId h ++ "/query") (JStr r) t
    = (Ok (JArr l), t') ->
  loop h (JStr r) (JStr "getAll") (S n) i rd returnData t =
  loop h (JStr r) (JStr "getAll") n (S i) (JArr l) (returnData ++ l)%list t'.
Proof.
  intros I L. simpl loop. unfold bind at 1.
  rewrite (getAll_run h r i rd t I). unfold next, bind. rewrite L.
  reflexivity.
Qed.

Lemma listing_is_spread_witness :
  In "vendor" resources
  /\ loop vendorListing (JStr "vendor") (JStr "getAll") 2 0 JUndefined [] [] =
     loop vendorListing (JStr "vendor") (JStr "getAll") 1 1
       (JArr [JObj [("Id", JNum 0)]; JObj [("Id", JNum 10)]])
       ([] ++ [JObj [("Id", JNum 0)]; JObj [("Id", JNum 10)]])%list [].
Proof.
  split; [simpl; tauto|].
  apply (listing_is_spread vendorListing "vendor" 1 0 JUndefined []
           [JObj [("Id", JNum 0)]; JObj [("Id", JNum 10)]] [] []).
  - simpl; tauto.
  - reflexivity.
Defined.

(** Two listings of two records each give four records, in order. *)
Example two_listings_four_records :
  collect vendorListing [] =
    (Ok (Collected [JObj [("Id", JNum 0)]; JObj [("Id", JNum 10)];
                    JObj [("Id", JNum 1)]; JObj [("Id", JNum 11)]]), []).
Proof. reflexivity. Qed.

Lemma push_extends (v : json) (returnData : list json) :
  exists more, push v returnData = (returnData ++ more)%list.
Proof. unfold push. destruct v; eexists; reflexivity. Qed.

(** X7.  Whatever the tags and the answers, a loop that runs to its end
    leaves the records collected before it in place: the sequence it ends
    with is the one it started with, followed by what its items appended.
    Nothing collected is dropped, replaced or reordered. *)
Theorem collected_records_kept
  (h : Host) (r o : json) (n : nat) :
  forall (i : nat) (rd : json) (returnData acc : list json) (t t' : Trace),
    loop h r o n i rd returnData t = (Ok (Collected acc), t') ->
    exists more, acc = (returnData ++ more)%list.
Proof.
  induction n as [|n IH]; intros i rd returnData acc t t'; simpl.
  - intros E. inversion E; subst. exists []. now rewrite app_nil_r.
  - unfold bind.
    destruct (dispatch h r o i rd t) as [[[rd1|output]|e] t1];
      try discriminate.
    intros E. destruct (IH _ _ _ _ _ _ E) as [more M].
    destruct (push_extends rd1 returnData) as [one P].
    rewrite P in M. exists (one ++ more)%list.
    now rewrite app_assoc.
Qed.

Lemma collected_records_kept_witness :
  exists more,
    [JObj [("Id", JNum 7)];
     JObj [("Id", JNum 1)]; JObj [("Id", JNum 11)]] =
    ([JObj [("Id", JNum 7)]] ++ more)%list.
Proof.
  apply (collected_records_kept vendorListing (JStr "vendor") (JStr "getAll")
           1 1 JUndefined [JObj [("Id", JNum 7)]]
           [JObj [("Id", JNum 7)];
            JObj [("Id", JNum 1)]; JObj [("Id", JNum 11)]] [] []).
  reflexivity.
Defined.

(** X8.  A failure on one item ends the whole run with that error: when
    the items before it were processed and their records collected, and
    the item's own processing throws, [execute] throws the same error
    with the log as that item left it.  The records collected so far are
    not returned, and no later item is processed; the requests already
    made stay made. *)
Theorem failure_aborts_run
  (h : Host) (a n : nat) (t0 t t' : Trace) (acc : list json) (e : Error) :
  length (items h) = a + S n ->
  loop h (param h "resource" 0) (param h "operation" 0) a 0 JUndefined [] t0
    = (Ok (Collected acc), t) ->
  (forall rd,
      dispatch h (param h "resource" 0) (param h "operation" 0) a rd t
      = (Err e, t')) ->
  execute h t0 = (Err e, t').
Proof.
  intros L B F.
  unfold execute, collect. rewrite L.
  destruct (loop_split h _ _ (S n) a 0 JUndefined [] acc t0 t B) as [rd' Sp].
  unfold bind at 1. rewrite Sp. simpl loop. unfold bind at 1.
  now rewrite F.
Qed.

Lemma failure_aborts_run_witness :
  loop secondUpdateEmpty (param secondUpdateEmpty "resource" 0)
    (param secondUpdateEmpty "operation" 0) 1 0 JUndefined [] []
  = (Ok (Collected
           [JObj [("SyncToken", JStr "1");
                  ("CustomerRef",
                   JObj [("name", JStr "Ann"); ("value", JStr "7")]);
                  ("VendorRef",
                   JObj [("name", JStr "Acme"); ("value", JStr "8")])]]),
     [mkRequest "GET" "/v3/company/C1/customer/4" [] [];
      mkRequest "POST" "/v3/company/C1/customer" []
        [("Id", JStr "4"); ("SyncToken", JStr "0"); ("sparse", JBool true);
         ("DisplayName", JStr "Bob")]])
  /\ execute secondUpdateEmpty [] =
       (Err (ValidationError
               "Please enter at least one field to update for the customer."),
        [mkRequest "GET" "/v3/company/C1/customer/4" [] [];
         mkRequest "POST" "/v3/company/C1/customer" []
           [("Id", JStr "4"); ("SyncToken", JStr "0"); ("sparse", JBool true);
            ("DisplayName", JStr "Bob")];
         mkRequest "GET" "/v3/company/C1/customer/5" [] []]).
Proof.
  split; [reflexivity|].
  apply (failure_aborts_run secondUpdateEmpty 1 0 []
           [mkRequest "GET" "/v3/company/C1/customer/4" [] [];
            mkRequest "POST" "/v3/company/C1/customer" []
              [("Id", JStr "4"); ("SyncToken", JStr "0");
               ("sparse", JBool true); ("DisplayName", JStr "Bob")]]
           _
           [JObj [("SyncToken", JStr "1");
                  ("CustomerRef",
                   JObj [("name", JStr "Ann"); ("value", JStr "7")]);
                  ("VendorRef",
                   JObj [("name", JStr "Acme"); ("value", JStr "8")])]]).
  - reflexivity.
  - reflexivity.
  - intros rd. reflexivity.
Defined.

(* ===================================================================== *)
(** ** Delete, void and a rejected read *)
(* ===================================================================== *)

(** X9.  A delete, of an invoice or a payment, whose read succeeds: the
    read is followed by one POST to /v3/company/{companyId}/{resource}
    with the single query parameter operation "delete" and a body of
    exactly the Id and the SyncToken just read. *)
Theorem delete_request_shape
  (h : Host) (r : string) (i : nat) (rd : json) (t : Trace)
  (resp entity : obj) :
  In r sendables ->
  server h t (entityRead (realmId h) (JStr r) (param h (r ++ "Id") i))
    = inr (JObj resp) ->
  get (capitalCase r) resp = JObj entity ->
  snd (dispatch h (JStr r) (JStr "delete") i rd t) =
    (t ++ [entityRead (realmId h) (JStr r) (param h (r ++ "Id") i);
           mkRequest "POST" ("/v3/company/" ++ realmId h ++ "/" ++ r)
             [("operation", JStr "delete")]
             [("Id", param h (r ++ "Id") i);
              ("SyncToken", get "SyncToken" entity)]])%list.
Proof.
  intros I S G.
  cases_in I; route; rewrite next_trace;
    apply (deleteEntity_ok_trace h _ i t resp entity S G).
Qed.

Lemma delete_request_shape_witness :
  In "invoice" sendables
  /\ snd (dispatch invoiceDelete (JStr "invoice") (JStr "delete") 0
            JUndefined []) =
       [mkRequest "GET" "/v3/company/C1/invoice/21" [] [];
        mkRequest "POST" "/v3/company/C1/invoice"
          [("operation", JStr "delete")]
          [("Id", JStr "21"); ("SyncToken", JStr "0")]].
Proof.
  split; [simpl; tauto|].
  apply (delete_request_shape invoiceDelete "invoice" 0 JUndefined []
           [("Invoice",
             JObj [("SyncToken", JStr "0");
                   ("CustomerRef",
                    JObj [("name", JStr "Ann"); ("value", JStr "7")]);
                   ("VendorRef",
                    JObj [("name", JStr "Acme"); ("value", JStr "8")])])]
           [("SyncToken", JStr "0");
            ("CustomerRef", JObj [("name", JStr "Ann"); ("value", JStr "7")]);
            ("VendorRef", JObj [("name", JStr "Acme"); ("value", JStr "8")])]).
  - simpl; tauto.
  - reflexivity.
  - reflexivity.
Defined.

(** X10.  A void, of an invoice or a payment, whose read succeeds: the
    read is followed by one POST to /v3/company/{companyId}/{resource}
    that carries the Id, the SyncToken just read and operation "void" as
    query parameters, in that order, and has an empty body. *)
Theorem void_request_shape
  (h : Host) (r : string) (i : nat) (rd : json) (t : Trace)
  (resp entity : obj) :
  In r sendables ->
  server h t (entityRead (realmId h) (JStr r) (param h (r ++ "Id") i))
    = inr (JObj resp) ->
  get (capitalCase r) resp = JObj entity ->
  snd (dispatch h (JStr r) (JStr "void") i rd t) =
    (t ++ [entityRead (realmId h) (JStr r) (param h (r ++ "Id") i);
           mkRequest "POST" ("/v3/company/" ++ realmId h ++ "/" ++ r)
             [("Id", param h (r ++ "Id") i);
              ("SyncToken", get "SyncToken" entity);
              ("operation", JStr "void")]
             []])%list.
Proof.
  intros I S G.
  cases_in I; route; rewrite next_trace;
    apply (voidEntity_ok_trace h _ i t resp entity S G).
Qed.

Lemma void_request_shape_witness :
  In "invoice" sendables
  /\ snd (dispatch invoiceVoid (JStr "invoice") (JStr "void") 0
            JUndefined []) =
       [mkRequest "GET" "/v3/company/C1/invoice/21" [] [];
        mkRequest "POST" "/v3/company/C1/invoice"
          [("Id", JStr "21"); ("SyncToken", JStr "0");
           ("operation", JStr "void")]
          []].
Proof.
  split; [simpl; tauto|].
  apply (void_request_shape invoiceVoid "invoice" 0 JUndefined []
           [("Invoice",
             JObj [("SyncToken", JStr "0");
                   ("CustomerRef",
                    JObj [("name", JStr "Ann"); ("value", JStr "7")]);
                   ("VendorRef",
                    JObj [("name", JStr "Acme"); ("value", JStr "8")])])]
           [("SyncToken", JStr "0");
            ("CustomerRef", JObj [("name", JStr "Ann"); ("value", JStr "7")]);
            ("VendorRef", JObj [("name", JStr "Acme"); ("value", JStr "8")])]).
  - simpl; tauto.
  - reflexivity.
  - reflexivity.
Defined.

Lemma bind_err {A B} (m : M A) (k : A -> M B) (t t' : Trace) (e : Error) :
  m t = (Err e, t') -> bind m k t = (Err e, t').
Proof. unfold bind. now intros ->. Qed.

Lemma getSyncToken_rejected (h : Host) (i : nat) (c r : string) (t : Trace)
  (failure : json) :
  server h t (entityRead c (JStr r) (param h (r ++ "Id") i)) = inl failure ->
  getSyncToken h i c (JStr r) t =
    (Err (UpstreamError failure),
     (t ++ [entityRead c (JStr r) (param h (r ++ "Id") i)])%list).
Proof.
  intros S. unfold getSyncToken, bind, quickBooksApiRequest.
  unfold entityRead in *. cbn [toStr method endpoint qs body] in *.
  now rewrite S.
Qed.

Lemma getRefAndSyncToken_rejected (h : Host) (i : nat) (c r ref : string)
  (t : Trace) (failure : json) :
  server h t (entityRead c (JStr r) (param h (r ++ "Id") i)) = inl failure ->
  getRefAndSyncToken h i c (JStr r) ref t =
    (Err (UpstreamError failure),
     (t ++ [entityRead c (JStr r) (param h (r ++ "Id") i)])%list).
Proof.
  intros S. unfold getRefAndSyncToken, bind, quickBooksApiRequest.
  unfold entityRead in *. cbn [toStr method endpoint qs body] in *.
  now rewrite S.
Qed.

(** X11.  For every update, delete and void: when the API rejects the
    item's entity read, the item fails with that rejection as it came,
    the read is the only request issued (no retry, no mutation), and for
    an update [updateFields] is not looked at: even an empty mapping
    gives the rejection, not the validation error. *)
Theorem rejected_read_surfaces
  (h : Host) (r o : string) (i : nat) (rd : json) (t : Trace)
  (failure : json) :
  In (r, o) mutations ->
  server h t (entityRead (realmId h) (JStr r) (param h (r ++ "Id") i))
    = inl failure ->
  dispatch h (JStr r) (JStr o) i rd t =
    (Err (UpstreamError failure),
     (t ++ [entityRead (realmId h) (JStr r) (param h (r ++ "Id") i)])%list).
Proof.
  intros I S.
  simpl in I.
  repeat (destruct I as [I | I]; [inversion I; subst r o; clear I | ]);
    try contradiction;
    route; apply next_err;
    unfold updatePlain, updateWithRef, deleteEntity, voidEntity;
    apply bind_err;
    first [ apply (getSyncToken_rejected h i _ _ t failure S)
          | apply (getRefAndSyncToken_rejected h i _ _ _ t failure S) ].
Qed.

Lemma rejected_read_surfaces_witness :
  In ("vendor", "update") mutations
  /\ isEmpty (param vendorUpdateDown "updateFields" 0) = true
  /\ dispatch vendorUpdateDown (JStr "vendor") (JStr "update") 0
       JUndefined [] =
       (Err (UpstreamError (JStr "503")),
        [mkRequest "GET" "/v3/company/C1/vendor/8" [] []]).
Proof.
  split; [simpl; tauto | split; [reflexivity | ]].
  apply (rejected_read_surfaces vendorUpdateDown "vendor" "update" 0
           JUndefined [] (JStr "503")).
  - simpl; tauto.
  - reflexivity.
Defined.

(* ===================================================================== *)
(** ** What one item can do *)
(* ===================================================================== *)

(** X12.  [responseData] is declared outside the loop, but for every
    pair with a branch the value the previous item left in it is never
    used: the item's outcome and requests are the same whatever that
    value is.  A record pushed for an item is always that item's own. *)
Theorem wired_item_ignores_previous_response
  (h : Host) (r o : json) (i : nat) (rd rd' : json) (t : Trace) :
  wired r o = true ->
  dispatch h r o i rd t = dispatch h r o i rd' t.
Proof.
  intros W. unfold dispatch.
  repeat first
    [ reflexivity
    | split_tag; cbn [strictEqStr String.eqb Ascii.eqb Bool.eqb] ];
  exfalso; unfold wired in W;
  cbn [existsb handlers fst snd strictEqStr String.eqb Ascii.eqb Bool.eqb
       andb orb] in W;
  repeat match goal with
         | E : strictEqStr _ _ = false |- _ => rewrite E in W; clear E
         end;
  cbn [andb orb] in W; discriminate W.
Qed.

Lemma wired_item_ignores_previous_response_witness :
  wired (JStr "customer") (JStr "get") = true
  /\ dispatch customerGetBlank (JStr "customer") (JStr "get") 0
       (JStr "left over") [] =
     dispatch customerGetBlank (JStr "customer") (JStr "get") 0
       JUndefined [].
Proof.
  split; [reflexivity|].
  apply (wired_item_ignores_previous_response customerGetBlank
           (JStr "customer") (JStr "get") 0 (JStr "left over") JUndefined []).
  reflexivity.
Defined.

Lemma prefix_refl (a : string) : prefix a a = true.
Proof.
  induction a as [|x a IH]; simpl; [reflexivity|].
  destruct (ascii_dec x x); [exact IH | contradiction].
Qed.

Section Bounded.

Variable h : Host.

Lemma bounded_none (res : json) (t : Trace) : sendsBounded h res t t.
Proof.
  exists []. split; [now rewrite app_nil_r|].
  split; [simpl; lia | constructor].
Qed.

Lemma bounded_one (res : json) (t : Trace) (req : Request) :
  prefix (resourceEndpoint h res) (endpoint req) = true ->
  sendsBounded h res t (t ++ [req])%list.
Proof.
  intros P. exists [req]. split; [reflexivity|].
  split; [simpl; lia | repeat constructor; exact P].
Qed.

Lemma bounded_two (res : json) (t : Trace) (req1 req2 : Request) :
  prefix (resourceEndpoint h res) (endpoint req1) = true ->
  prefix (resourceEndpoint h res) (endpoint req2) = true ->
  sendsBounded h res t (t ++ [req1; req2])%list.
Proof.
  intros P1 P2. exists [req1; req2]. split; [reflexivity|].
  split; [simpl; lia | repeat constructor; assumption].
Qed.

Lemma entityRead_below (r : string) (id : json) :
  prefix (resourceEndpoint h (JStr r))
    (endpoint (entityRead (realmId h) (JStr r) id)) = true.
Proof.
  unfold resourceEndpoint, entityRead, companyId. cbn [toStr endpoint].
  replace ("/v3/company/" ++ realmId h ++ "/" ++ r ++ "/" ++ toStr id)
    with (("/v3/company/" ++ realmId h ++ "/" ++ r) ++ "/" ++ toStr id)
    by (now rewrite !append_assoc).
  apply prefix_append.
Qed.

Lemma lineRefs_quiet (lines : list obj) (t : Trace) :
  snd (billLineRefs lines t) = t /\ snd (salesLineRefs lines t) = t.
Proof.
  induction lines as [|l lines [IHb IHs]]; simpl; [now split|].
  split.
  - destruct (_ && _); [reflexivity|]. destruct (_ && _); [reflexivity|].
    exact IHb.
  - destruct (_ && _); [reflexivity | exact IHs].
Qed.

Lemma createFrom_bounded (res : json) (b : obj) (i : nat) (t : Trace) :
  sendsBounded h res t (snd (createFrom h res b i t)).
Proof.
  rewrite createFrom_trace. apply bounded_one. apply prefix_refl.
Qed.

Lemma createWithLines_bounded (res : json) (refName : string)
  (lineRefs : list obj -> M unit) (i : nat) (t : Trace) :
  (forall lines, snd (lineRefs lines t) = t) ->
  sendsBounded h res t (snd (createWithLines h res refName lineRefs i t)).
Proof.
  intros Q. rewrite createWithLines_run.
  destruct (lineParam h i) as [|l ls]; [apply bounded_none|].
  destruct (existsb lineIncomplete (l :: ls)); [apply bounded_none|].
  pose proof (Q (l :: ls)) as Q'.
  destruct (lineRefs (l :: ls) t) as [[u|e] t']; simpl in Q'; subst t'.
  - apply createFrom_bounded.
  - apply bounded_none.
Qed.

Lemma getEntity_bounded (res : json) (idName : string) (i : nat)
  (t : Trace) :
  sendsBounded h res t (snd (getEntity h res idName i t)).
Proof.
  unfold getEntity. rewrite request_unwrap_trace.
  apply bounded_one. apply prefix_append.
Qed.

Lemma sendEntity_bounded (res : json) (idName : string) (i : nat)
  (t : Trace) :
  sendsBounded h res t (snd (sendEntity h res idName i t)).
Proof.
  unfold sendEntity. rewrite request_unwrap_trace.
  apply bounded_one. apply prefix_append.
Qed.

Lemma updateLogged_bounded (r idName : string) (i : nat) (t t' : Trace) :
  updateLogged h r idName i t t' -> sendsBounded h (JStr r) t t'.
Proof.
  intros [-> | [resp [extra [_ ->]]]].
  - apply bounded_one. apply entityRead_below.
  - apply bounded_two; [apply entityRead_below | apply prefix_refl].
Qed.

Lemma afterToken_bounded (r : string) (i : nat) (t : Trace)
  (k : json -> M json) :
  (forall tok t1, exists req,
      snd (k tok t1) = (t1 ++ [req])%list
      /\ prefix (resourceEndpoint h (JStr r)) (endpoint req) = true) ->
  sendsBounded h (JStr r) t
    (snd (bind (getSyncToken h i (companyId h) (JStr r)) k t)).
Proof.
  intros K.
  destruct (getSyncToken h i (companyId h) (JStr r) t) as [x t'] eqn:E.
  destruct x as [tok|e];
    [ rewrite (bind_ok_trace _ _ _ _ _ E)
    | rewrite (bind_err_trace _ _ _ _ _ E) ];
    apply getSyncToken_inv in E; destruct E as [-> _].
  - destruct (K tok (t ++ [entityRead (companyId h) (JStr r)
                             (param h (r ++ "Id") i)])%list)
      as [req [-> P]].
    rewrite <- app_assoc. apply bounded_two; [apply entityRead_below | exact P].
  - apply bounded_one. apply entityRead_below.
Qed.

Lemma deleteEntity_bounded (r idName : string) (i : nat) (t : Trace) :
  sendsBounded h (JStr r) t (snd (deleteEntity h (JStr r) idName i t)).
Proof.
  unfold deleteEntity. apply afterToken_bounded. intros tok t1.
  eexists. rewrite request_unwrap_trace. split; [reflexivity|].
  apply prefix_refl.
Qed.

Lemma voidEntity_bounded (r idName : string) (i : nat) (t : Trace) :
  sendsBounded h (JStr r) t (snd (voidEntity h (JStr r) idName i t)).
Proof.
  unfold voidEntity. apply afterToken_bounded. intros tok t1.
  eexists. rewrite request_unwrap_trace. split; [reflexivity|].
  apply prefix_refl.
Qed.

End Bounded.

(** X13.  Apart from a listing and a download, which are the helpers'
    own business, no item ever issues more than two requests, whatever
    the tags, the parameters and the answers; and every request it
    issues is addressed at or below /v3/company/{companyId}/{resource}
    for the resource of the tag. *)
Theorem item_requests_bounded
  (h : Host) (r o : json) (i : nat) (rd : json) (t : Trace) :
  strictEqStr o "getAll" = false ->
  (strictEqStr o "get" = true -> truthy (param h "download" i) = false) ->
  exists sent,
    snd (dispatch h r o i rd t) = (t ++ sent)%list
    /\ length sent <= 2
    /\ Forall (fun req =>
                 prefix (resourceEndpoint h r) (endpoint req) = true) sent.
Proof.
  intros A D.
  change (sendsBounded h r t (snd (dispatch h r o i rd t))).
  unfold dispatch.
  repeat first
    [ discriminate A
    | split_tag;
      cbn [strictEqStr String.eqb Ascii.eqb Bool.eqb] in A, D |- * ];
  try (specialize (D eq_refl));
  unfold getOrDownload; try rewrite D;
  rewrite ?next_trace;
  first
    [ apply bounded_none
    | apply createFrom_bounded
    | apply createWithLines_bounded; intros lines; apply lineRefs_quiet
    | apply getEntity_bounded
    | apply sendEntity_bounded
    | apply deleteEntity_bounded
    | apply voidEntity_bounded
    | eapply updateLogged_bounded; apply updatePlain_logged
    | eapply updateLogged_bounded; apply updateWithRef_logged ].
Qed.

Lemma item_requests_bounded_witness :
  strictEqStr (JStr "update") "getAll" = false
  /\ exists sent,
       snd (dispatch customerUpdate (JStr "customer") (JStr "update") 0
              JUndefined []) = ([] ++ sent)%list
       /\ length sent <= 2
       /\ Forall (fun req =>
                    prefix (resourceEndpoint customerUpdate (JStr "customer"))
                      (endpoint req) = true) sent.
Proof.
  split; [reflexivity|].
  apply (item_requests_bounded customerUpdate (JStr "customer")
           (JStr "update") 0 JUndefined []).
  - reflexivity.
  - discriminate.
Defined.

(* ===================================================================== *)
(** ** The body of a create with lines *)
(* ===================================================================== *)

(** X14.  On bill, estimate and invoice create, once the line checks
    pass, the item issues exactly one request and reads nothing first:
    the POST of /v3/company/{companyId}/{resource} whose body is what
    [populateFields] makes of two fields, in this order: the reference
    (VendorRef for a bill, CustomerRef otherwise) wrapping the parameter
    as [{value: ...}], then Line with the processed lines. *)
Theorem lines_create_body
  (h : Host) (r ref : string) (i : nat) (rd : json) (t : Trace) :
  In r lineResources ->
  referenceOf r = Some ref ->
  lineParam h i <> [] ->
  existsb lineIncomplete (lineParam h i) = false ->
  existsb (refMissing r) (lineParam h i) = false ->
  snd (dispatch h (JStr r) (JStr "create") i rd t) =
    (t ++ [mkRequest "POST" ("/v3/company/" ++ realmId h ++ "/" ++ r) []
             (populateFields h
                [(ref, JObj [("value", param h ref i)]);
                 ("Line",
                  processLines [(ref, JObj [("value", param h ref i)])]
                    (lineParam h i) (JStr r))]
                (param h "additionalFields" i) (JStr r))])%list.
Proof.
  intros I F N C R.
  assert (P : forall lineRefs,
             lineRefs (lineParam h i) t = (Ok tt, t) ->
             snd (next (createWithLines h (JStr r) ref lineRefs i) t) =
             (t ++ [mkRequest "POST" ("/v3/company/" ++ realmId h ++ "/" ++ r)
                      []
                      (populateFields h
                         [(ref, JObj [("value", param h ref i)]);
                          ("Line",
                           processLines
                             [(ref, JObj [("value", param h ref i)])]
                             (lineParam h i) (JStr r))]
                         (param h "additionalFields" i) (JStr r))])%list).
  { intros lineRefs Pass.
    rewrite next_trace, createWithLines_run.
    destruct (lineParam h i) as [|l ls] eqn:L; [contradiction|].
    rewrite C, Pass, createFrom_trace.
    cbn [set]. destruct (String.eqb_spec "Line" ref) as [E | _].
    - subst ref. cases_in I; discriminate F.
    - reflexivity. }
  cases_in I; injection F as <-; route; apply P.
  - now apply billLineRefs_pass.
  - now apply (salesLineRefs_pass "estimate").
  - now apply (salesLineRefs_pass "invoice").
Qed.

Lemma lines_create_body_witness :
  In "bill" lineResources
  /\ snd (dispatch billAccount (JStr "bill") (JStr "create") 0 JUndefined [])
     = [mkRequest "POST" "/v3/company/C1/bill" []
          [("VendorRef", JObj [("value", JStr "7")]);
           ("Line",
            JArr [JObj [("DetailType", JStr "AccountBasedExpenseLineDetail");
                        ("Amount", JNum 100);
                        ("Description", JStr "office");
                        ("AccountBasedExpenseLineDetail",
                         JObj [("AccountRef",
                                JObj [("value", JStr "42")])])]])]].
Proof.
  split; [simpl; tauto|].
  apply (lines_create_body billAccount "bill" "VendorRef" 0 JUndefined []).
  - simpl; tauto.
  - reflexivity.
  - discriminate.
  - reflexivity.
  - reflexivity.
Defined.
